(** * Studevo backend: the Express routes over the Mongoose models

    A shallow embedding of [backend/server.js] and of the three Mongoose
    schemas it loads ([Student], [Organization], [Post]; the Post schema
    exists in two revisions).  A route handler becomes a function from the
    database before the request to the database after it and the HTTP
    response.  What the JavaScript platform supplies (the [Date]
    constructor, the BSON ObjectId constructor, bcrypt) is an interface,
    [Platform], and every theorem holds for each implementation of it. *)

From Stdlib Require Import String Ascii List ZArith Lia Bool Arith.
From Stdlib Require Import Sorting.Permutation Sorting.Sorted.
Import ListNotations.

Local Open Scope list_scope.
Local Open Scope string_scope.

(** ** JavaScript values

    A field of a JSON request body, a query parameter or a path parameter
    is either absent ([undefined]) or a string; a string is a sequence of
    code units, one [ascii] each.  Bodies that carry another JSON value in
    a field (a number, an object) are outside this development. *)

Definition field := option string.

(** [!!x]: [undefined] and the empty string are the falsy values. *)
Definition truthy (x : field) : bool :=
  match x with
  | Some s => negb (s =? EmptyString)
  | None => false
  end.

(** [x || d] *)
Definition orElse (x : field) (d : string) : string :=
  match x with
  | Some s => if s =? EmptyString then d else s
  | None => d
  end.

(** The string held by a field that passed a [!x] guard. *)
Definition str (x : field) : string :=
  match x with
  | Some s => s
  | None => EmptyString
  end.

(** [xs.includes(x)] *)
Definition includes (xs : list string) (x : string) : bool :=
  existsb (String.eqb x) xs.

(** [xs.join(sep)] *)
Fixpoint join (sep : string) (xs : list string) : string :=
  match xs with
  | [] => EmptyString
  | [x] => x
  | x :: rest => x ++ sep ++ join sep rest
  end.

(** The double quote character, as a one-character string. *)
Definition dquote : string :=
  String (Ascii false true false false false true false false) EmptyString.

(** White space of [String.prototype.trim] among the code units below 256:
    TAB, LF, VT, FF, CR, space and the no-break space. *)
Definition isWhiteSpace (c : ascii) : bool :=
  let n := nat_of_ascii c in
  ((9 <=? n)%nat && (n <=? 13)%nat) || (n =? 32)%nat || (n =? 160)%nat.

Fixpoint trimStart (s : string) : string :=
  match s with
  | String c r => if isWhiteSpace c then trimStart r else s
  | EmptyString => EmptyString
  end.

Fixpoint trimEnd (s : string) : string :=
  match s with
  | String c r =>
      match trimEnd r with
      | EmptyString => if isWhiteSpace c then EmptyString else String c EmptyString
      | r' => String c r'
      end
  | EmptyString => EmptyString
  end.

(** [s.trim()] *)
Definition trim (s : string) : string := trimEnd (trimStart s).

(** [/^(https?:\/\/)/.test(v)] *)
Definition startsWithHttp (v : string) : bool :=
  String.prefix "http://" v || String.prefix "https://" v.

(** ** The platform

    An ObjectId is written as its 24-digit hexadecimal rendering.  Which
    strings the BSON constructor accepts differs between driver versions
    (24 hexadecimal digits always, 12-byte strings in some), so the cast is
    part of the interface; [mongoose.Types.ObjectId.isValid] on a string
    tells whether the constructor accepts it.  A [Date] is its time value
    in milliseconds, and [Date_parse] answers [None] where
    [new Date(str).getTime()] is [NaN]. *)

Definition ObjectId := string.

Class Platform := {
  Date_parse : string -> option Z;
  castObjectId : string -> option ObjectId;
  bcrypt_hash : string -> string -> string;
  bcrypt_compare : string -> string -> bool
}.

Definition ObjectId_isValid `{Platform} (s : string) : bool :=
  match castObjectId s with
  | Some _ => true
  | None => false
  end.

(** What a request draws from its environment: the clock behind the
    [timestamps] option, the identifier the driver generates for a new
    document, and the salt of [bcrypt.genSalt(10)]. *)
Record Env := {
  now : Z;
  newId : ObjectId;
  salt : string
}.

(** ** Helper functions of server.js *)

Definition parseDate `{Platform} (x : field) : option Z :=
  match x with
  | Some s => if s =? EmptyString then None else Date_parse s
  | None => None
  end.

(** [start && end && start > end] *)
Definition startAfterEnd (start end_ : option Z) : bool :=
  match start, end_ with
  | Some s, Some e => (e <? s)%Z
  | _, _ => false
  end.

(** ** Documents and collections *)

Record StudentDoc := {
  s_id : ObjectId;
  s_email : string;
  s_password : string;
  s_firstName : option string;
  s_lastName : option string;
  s_phone : option string;
  s_address : option string;
  s_education : option string;
  s_skills : option string;
  s_experience : option string;
  s_projects : option string;
  s_certifications : option string;
  s_createdAt : Z;
  s_updatedAt : Z
}.

Record OrganizationDoc := {
  o_id : ObjectId;
  o_orgName : string;
  o_email : string;
  o_phone : string;
  o_password : string;
  o_createdAt : Z;
  o_updatedAt : Z
}.

(** [p_v] is the version key [__v]: every stored document has one, a
    projection with [select('-__v')] has none. *)
Record PostDoc := {
  p_id : ObjectId;
  p_orgId : ObjectId;
  p_orgName : string;
  p_title : string;
  p_type : string;
  p_description : string;
  p_location : string;
  p_durationStart : option Z;
  p_durationEnd : option Z;
  p_deadline : option Z;
  p_applicationLink : string;
  p_status : string;
  p_createdAt : Z;
  p_updatedAt : Z;
  p_v : option Z
}.

(** The collections, each in insertion order. *)
Record Db := {
  students : list StudentDoc;
  organizations : list OrganizationDoc;
  posts : list PostDoc
}.

(** ** Errors thrown by Mongoose, told apart by [err.name] *)

Inductive MongooseError :=
| ValidationError (errors : list string)   (* messages of [err.errors] *)
| CastError
| MongoServerError.                         (* E11000 duplicate key *)

Inductive Outcome (A : Type) :=
| Returned (a : A)
| Threw (err : MongooseError).
Arguments Returned {A} a.
Arguments Threw {A} err.

(** ** HTTP responses *)

Record CvJson := {
  cv_firstName : option string;
  cv_lastName : option string;
  cv_email : string;
  cv_phone : option string;
  cv_address : option string;
  cv_education : option string;
  cv_skills : option string;
  cv_experience : option string;
  cv_projects : option string;
  cv_certifications : option string
}.

Inductive Body :=
| BError (error : string)
| BMessage (message : string)
| BRegistered (message role : string)
| BLogin (message role email : string) (id : ObjectId) (orgId : option ObjectId)
| BCvSaved (message : string) (cv : CvJson)
| BCv (id : ObjectId) (cv : CvJson)
| BPost (post : PostDoc)
| BPosts (posts : list PostDoc).

Record Response := {
  status : Z;
  body : Body
}.

(** [res.status(code).json({ error })] *)
Definition fail (code : Z) (error : string) : Response :=
  {| status := code; body := BError error |}.

(** [res.status(code).json(b)] *)
Definition reply (code : Z) (b : Body) : Response :=
  {| status := code; body := b |}.

(** ** What Mongoose does with a schema

    A String path declared with [trim: true] has a setter that trims the
    value whenever it is set on a document and whenever it is cast in a
    query filter or an update.  Validators of one path run in order,
    [required] first, and the path reports the first failure only. *)

Definition firstError (checks : list (bool * string)) : list string :=
  match List.find (fun c => negb (fst c)) checks with
  | Some c => [snd c]
  | None => []
  end.

Definition required (path v : string) : bool * string :=
  (negb (v =? EmptyString), "Path `" ++ path ++ "` is required.").

Definition maxlength (path : string) (n : nat) (shown : string) (v : string) : bool * string :=
  ((String.length v <=? n)%nat,
   "Path `" ++ path ++ "` (`" ++ v ++ "`) is longer than the maximum allowed length ("
     ++ shown ++ ").").

Definition minlength (path : string) (n : nat) (shown : string) (v : string) : bool * string :=
  ((n <=? String.length v)%nat,
   "Path `" ++ path ++ "` (`" ++ v ++ "`) is shorter than the minimum allowed length ("
     ++ shown ++ ").").

Definition enum (path : string) (values : list string) (v : string) : bool * string :=
  (includes values v, "`" ++ v ++ "` is not a valid enum value for path `" ++ path ++ "`.").

(** Replace the first element that satisfies [P], as an update by [_id]
    does. *)
Fixpoint replaceFirst {A : Type} (P : A -> bool) (f : A -> A) (l : list A) : list A :=
  match l with
  | [] => []
  | x :: r => if P x then f x :: r else x :: replaceFirst P f r
  end.

(** Remove the first element that satisfies [P]. *)
Fixpoint removeFirst {A : Type} (P : A -> bool) (l : list A) : list A :=
  match l with
  | [] => []
  | x :: r => if P x then r else x :: removeFirst P r
  end.

(** *** models/Student.js *)

Module Student.

(** [Student.findOne({ email })]: the filter value is cast by the schema,
    and [email] is declared with [trim: true]. *)
Definition findOne (db : Db) (email : string) : option StudentDoc :=
  List.find (fun u => s_email u =? trim email) (students db).

(** [Student.exists({ email })]; a filter on [undefined] asks for a
    document without the path, and every student has an email. *)
Definition exists_ (db : Db) (email : field) : bool :=
  match email with
  | Some e => match findOne db e with Some _ => true | None => false end
  | None => false
  end.

(** [new Student({ firstName, lastName, email, phone, password })] *)
Definition new (env : Env) (firstName lastName email phone password : string)
  : StudentDoc :=
  {| s_id := newId env;
     s_email := trim email;
     s_password := password;
     s_firstName := Some (trim firstName);
     s_lastName := Some (trim lastName);
     s_phone := Some (trim phone);
     s_address := None;
     s_education := None;
     s_skills := None;
     s_experience := None;
     s_projects := None;
     s_certifications := None;
     s_createdAt := now env;
     s_updatedAt := now env |}.

Definition validate (doc : StudentDoc) : list string :=
  (firstError [required "email" (s_email doc)]
     ++ firstError [required "password" (s_password doc)])%list.

Definition withStudents (db : Db) (l : list StudentDoc) : Db :=
  {| students := l; organizations := organizations db; posts := posts db |}.

(** [doc.save()] of a new document; [email] has a unique index. *)
Definition insert (db : Db) (doc : StudentDoc) : Outcome Db :=
  match validate doc with
  | [] =>
      if existsb (fun u => s_email u =? s_email doc) (students db)
      then Threw MongoServerError
      else Returned (withStudents db (students db ++ [doc])%list)
  | errs => Threw (ValidationError errs)
  end.

(** Whether a String path holds the value it held when the document was
    read. *)
Definition sameValue (x y : option string) : bool :=
  match x, y with
  | Some a, Some b => a =? b
  | None, None => true
  | _, _ => false
  end.

(** [doc.isModified()]: some path was set to a value other than the one
    read from the collection. *)
Definition isModified (original doc : StudentDoc) : bool :=
  negb
    ((s_email original =? s_email doc)
     && (s_password original =? s_password doc)
     && sameValue (s_firstName original) (s_firstName doc)
     && sameValue (s_lastName original) (s_lastName doc)
     && sameValue (s_phone original) (s_phone doc)
     && sameValue (s_address original) (s_address doc)
     && sameValue (s_education original) (s_education doc)
     && sameValue (s_skills original) (s_skills doc)
     && sameValue (s_experience original) (s_experience doc)
     && sameValue (s_projects original) (s_projects doc)
     && sameValue (s_certifications original) (s_certifications doc)).

(** The [timestamps] option on save: [updatedAt] follows the clock when
    the document is modified, and stays otherwise. *)
Definition touch (env : Env) (original doc : StudentDoc) : StudentDoc :=
  {| s_id := s_id doc;
     s_email := s_email doc;
     s_password := s_password doc;
     s_firstName := s_firstName doc;
     s_lastName := s_lastName doc;
     s_phone := s_phone doc;
     s_address := s_address doc;
     s_education := s_education doc;
     s_skills := s_skills doc;
     s_experience := s_experience doc;
     s_projects := s_projects doc;
     s_certifications := s_certifications doc;
     s_createdAt := s_createdAt doc;
     s_updatedAt := if isModified original doc then now env else s_updatedAt doc |}.

(** [doc.save()] of a document that was read from the collection as
    [original]: the stored document with its [_id] takes the values of
    [doc]; a document without a modified path is stored as it was read.
    The document that is saved is returned with the database. *)
Definition save (env : Env) (db : Db) (original doc : StudentDoc)
  : Outcome (Db * StudentDoc) :=
  match validate doc with
  | [] =>
      let doc' := touch env original doc in
      Returned
        (withStudents db
           (replaceFirst (fun u => s_id u =? s_id doc) (fun _ => doc') (students db)),
         doc')
  | errs => Threw (ValidationError errs)
  end.

End Student.

(** *** models/Organization.js *)

Module Organization.

(** [Organization.findOne({ email })]; this schema has no setter. *)
Definition findOne (db : Db) (email : string) : option OrganizationDoc :=
  List.find (fun o => o_email o =? email) (organizations db).

Definition exists_ (db : Db) (email : field) : bool :=
  match email with
  | Some e => match findOne db e with Some _ => true | None => false end
  | None => false
  end.

(** [new Organization({ orgName, email, phone, password })] *)
Definition new (env : Env) (orgName email phone password : string) : OrganizationDoc :=
  {| o_id := newId env;
     o_orgName := orgName;
     o_email := email;
     o_phone := phone;
     o_password := password;
     o_createdAt := now env;
     o_updatedAt := now env |}.

Definition validate (doc : OrganizationDoc) : list string :=
  (firstError [required "orgName" (o_orgName doc)]
     ++ firstError [required "email" (o_email doc)]
     ++ firstError [required "password" (o_password doc)])%list.

Definition withOrganizations (db : Db) (l : list OrganizationDoc) : Db :=
  {| students := students db; organizations := l; posts := posts db |}.

Definition insert (db : Db) (doc : OrganizationDoc) : Outcome Db :=
  match validate doc with
  | [] =>
      if existsb (fun o => o_email o =? o_email doc) (organizations db)
      then Threw MongoServerError
      else Returned (withOrganizations db (organizations db ++ [doc])%list)
  | errs => Threw (ValidationError errs)
  end.

End Organization.

(** *** models/Post.js

    The file has two revisions, which differ in [applicationLink] only: an
    optional trimmed string with default [''], or a required string that
    must start with [http://] or [https://]. *)

Inductive PostSchemaRevision :=
| OptionalLink
| RequiredUrlLink.

Module Post.

(** The eight paths that both [new Post({...})] and the update set. *)
Record Content := {
  title : string;
  type : string;
  description : string;
  location : string;
  durationStart : option Z;
  durationEnd : option Z;
  deadline : option Z;
  applicationLink : string
}.

Definition setApplicationLink (rev : PostSchemaRevision) (v : string) : string :=
  match rev with
  | OptionalLink => trim v
  | RequiredUrlLink => v
  end.

(** The setters of the schema applied to the eight paths. *)
Definition cast (rev : PostSchemaRevision) (c : Content) : Content :=
  {| title := trim (title c);
     type := type c;
     description := description c;
     location := location c;
     durationStart := durationStart c;
     durationEnd := durationEnd c;
     deadline := deadline c;
     applicationLink := setApplicationLink rev (applicationLink c) |}.

Definition validateOrgName (v : string) : list string :=
  firstError [required "orgName" v].

Definition validateTitle (v : string) : list string :=
  firstError [required "title" v; maxlength "title" 100 "100" v].

Definition validateType (v : string) : list string :=
  firstError
    [required "type" v;
     enum "type" ["Internship"; "Volunteering"; "Mentorship"; "Event"] v].

Definition validateDescription (v : string) : list string :=
  firstError
    [required "description" v;
     minlength "description" 20 "20" v;
     maxlength "description" 2000 "2000" v].

Definition validateApplicationLink (rev : PostSchemaRevision) (v : string)
  : list string :=
  match rev with
  | OptionalLink => []
  | RequiredUrlLink =>
      firstError
        [required "applicationLink" v;
         (startsWithHttp v,
          "Application link must be a valid URL starting with http:// or https://")]
  end.

Definition validateStatus (v : string) : list string :=
  firstError [enum "status" ["draft"; "active"] v].

(** The validators of the eight paths, on values already cast.  The
    messages of several failing paths are listed in the order of the
    schema; the order in which Mongoose reports them is not followed. *)
Definition validateContent (rev : PostSchemaRevision) (c : Content) : list string :=
  (validateTitle (title c)
     ++ validateType (type c)
     ++ validateDescription (description c)
     ++ validateApplicationLink rev (applicationLink c))%list.

Definition castOrgIdError `{Platform} (orgId : string) : list string :=
  match castObjectId orgId with
  | Some _ => []
  | None =>
      ["Cast to ObjectId failed for value " ++ dquote ++ orgId ++ dquote
         ++ " (type string) at path " ++ dquote ++ "orgId" ++ dquote]
  end.

Definition withPosts (db : Db) (l : list PostDoc) : Db :=
  {| students := students db; organizations := organizations db; posts := l |}.

(** [new Post({ orgId, orgName, ..., status })] followed by [save()]:
    the document is validated, then inserted with a generated [_id], the
    timestamps and the version key.  The saved document is returned with
    the database. *)
Definition create `{Platform} (rev : PostSchemaRevision) (env : Env) (db : Db)
    (orgId orgName : string) (content : Content) (status : string)
  : Outcome (Db * PostDoc) :=
  let c := cast rev content in
  let errs :=
    (castOrgIdError orgId ++ validateOrgName orgName ++ validateContent rev c
       ++ validateStatus status)%list in
  match castObjectId orgId, errs with
  | Some oid, [] =>
      let doc :=
        {| p_id := newId env;
           p_orgId := oid;
           p_orgName := orgName;
           p_title := title c;
           p_type := type c;
           p_description := description c;
           p_location := location c;
           p_durationStart := durationStart c;
           p_durationEnd := durationEnd c;
           p_deadline := deadline c;
           p_applicationLink := applicationLink c;
           p_status := status;
           p_createdAt := now env;
           p_updatedAt := now env;
           p_v := Some 0%Z |} in
      Returned (withPosts db (posts db ++ [doc])%list, doc)
  | _, _ => Threw (ValidationError errs)
  end.

Definition hasId (oid : ObjectId) (p : PostDoc) : bool := p_id p =? oid.

Definition findById `{Platform} (db : Db) (id : string) : Outcome (option PostDoc) :=
  match castObjectId id with
  | Some oid => Returned (List.find (hasId oid) (posts db))
  | None => Threw CastError
  end.

(** The document after [$set] of the eight paths; [updatedAt] follows
    the clock, every other path keeps its stored value. *)
Definition apply (env : Env) (c : Content) (p : PostDoc) : PostDoc :=
  {| p_id := p_id p;
     p_orgId := p_orgId p;
     p_orgName := p_orgName p;
     p_title := title c;
     p_type := type c;
     p_description := description c;
     p_location := location c;
     p_durationStart := durationStart c;
     p_durationEnd := durationEnd c;
     p_deadline := deadline c;
     p_applicationLink := applicationLink c;
     p_status := p_status p;
     p_createdAt := p_createdAt p;
     p_updatedAt := now env;
     p_v := p_v p |}.

(** [Post.findByIdAndUpdate(id, {...}, { new: true, runValidators: true })]:
    the filter is cast, the update is cast and validated, and only then
    is the document looked up; the answer is the document after the
    update, or [null]. *)
Definition findByIdAndUpdate `{Platform} (rev : PostSchemaRevision) (env : Env)
    (db : Db) (id : string) (content : Content)
  : Outcome (Db * option PostDoc) :=
  match castObjectId id with
  | None => Threw CastError
  | Some oid =>
      let c := cast rev content in
      match validateContent rev c with
      | [] =>
          match List.find (hasId oid) (posts db) with
          | Some p =>
              Returned
                (withPosts db (replaceFirst (hasId oid) (apply env c) (posts db)),
                 Some (apply env c p))
          | None => Returned (db, None)
          end
      | errs => Threw (ValidationError errs)
      end
  end.

Definition findByIdAndDelete `{Platform} (db : Db) (id : string)
  : Outcome (Db * option PostDoc) :=
  match castObjectId id with
  | None => Threw CastError
  | Some oid =>
      match List.find (hasId oid) (posts db) with
      | Some p => Returned (withPosts db (removeFirst (hasId oid) (posts db)), Some p)
      | None => Returned (db, None)
      end
  end.

(** [.sort({ createdAt: -1 })]: newest first; documents created at the
    same instant keep their stored order. *)
Fixpoint insertDesc (p : PostDoc) (l : list PostDoc) : list PostDoc :=
  match l with
  | [] => [p]
  | q :: r =>
      if (p_createdAt q <=? p_createdAt p)%Z then p :: l else q :: insertDesc p r
  end.

Definition sortByCreatedAtDesc (l : list PostDoc) : list PostDoc :=
  fold_right insertDesc [] l.

(** [Post.find({ orgId }).sort({ createdAt: -1 })] *)
Definition findByOrgId `{Platform} (db : Db) (orgId : string) : Outcome (list PostDoc) :=
  match castObjectId orgId with
  | Some oid =>
      Returned (sortByCreatedAtDesc (filter (fun p => p_orgId p =? oid) (posts db)))
  | None => Threw CastError
  end.

(** [.select('-__v')] *)
Definition selectWithoutV (p : PostDoc) : PostDoc :=
  {| p_id := p_id p;
     p_orgId := p_orgId p;
     p_orgName := p_orgName p;
     p_title := p_title p;
     p_type := p_type p;
     p_description := p_description p;
     p_location := p_location p;
     p_durationStart := p_durationStart p;
     p_durationEnd := p_durationEnd p;
     p_deadline := p_deadline p;
     p_applicationLink := p_applicationLink p;
     p_status := p_status p;
     p_createdAt := p_createdAt p;
     p_updatedAt := p_updatedAt p;
     p_v := None |}.

(** [Post.find({ status: 'active' }).sort({ createdAt: -1 }).select('-__v')] *)
Definition findActive (db : Db) : list PostDoc :=
  map selectWithoutV
    (sortByCreatedAtDesc (filter (fun p => p_status p =? "active") (posts db))).

End Post.

(** ** Request bodies *)

Record CvBody := {
  cv_req_email : field;
  cv_req_firstName : field;
  cv_req_lastName : field;
  cv_req_phone : field;
  cv_req_address : field;
  cv_req_education : field;
  cv_req_skills : field;
  cv_req_experience : field;
  cv_req_projects : field;
  cv_req_certifications : field
}.

(** [orgTerms] is the terms-acceptance flag; absent counts as [false]. *)
Record RegisterBody := {
  reg_role : field;
  reg_firstName : field;
  reg_lastName : field;
  reg_email : field;
  reg_phone : field;
  reg_password : field;
  reg_orgName : field;
  reg_orgTerms : bool
}.

Record LoginBody := {
  login_email : field;
  login_password : field
}.

Record PostBody := {
  req_orgId : field;
  req_orgName : field;
  req_title : field;
  req_type : field;
  req_description : field;
  req_location : field;
  req_durationStart : field;
  req_durationEnd : field;
  req_deadline : field;
  req_applicationLink : field;
  req_status : field
}.

(** ** Routes of server.js *)

Section Routes.

Context `{Platform}.

(** [app.post('/api/cv', ...)] *)
Definition post_api_cv (env : Env) (db : Db) (b : CvBody) : Db * Response :=
  if negb (truthy (cv_req_email b)) || negb (truthy (cv_req_firstName b))
     || negb (truthy (cv_req_lastName b)) || negb (truthy (cv_req_phone b))
  then (db, fail 400 "Email, First Name, Last Name, and Phone are required.")
  else
    match Student.findOne db (str (cv_req_email b)) with
    | None => (db, fail 400 "Student not found.")
    | Some stored =>
        let student :=
          {| s_id := s_id stored;
             s_email := s_email stored;
             s_password := s_password stored;
             s_firstName := Some (trim (str (cv_req_firstName b)));
             s_lastName := Some (trim (str (cv_req_lastName b)));
             s_phone := Some (trim (str (cv_req_phone b)));
             s_address := Some (trim (orElse (cv_req_address b) EmptyString));
             s_education := Some (trim (orElse (cv_req_education b) EmptyString));
             s_skills := Some (trim (orElse (cv_req_skills b) EmptyString));
             s_experience := Some (trim (orElse (cv_req_experience b) EmptyString));
             s_projects := Some (trim (orElse (cv_req_projects b) EmptyString));
             s_certifications :=
               Some (trim (orElse (cv_req_certifications b) EmptyString));
             s_createdAt := s_createdAt stored;
             s_updatedAt := s_updatedAt stored |} in
        match Student.save env db stored student with
        | Returned (db', _) =>
            (db',
             reply 200
               (BCvSaved "CV saved successfully!"
                  {| cv_firstName := s_firstName student;
                     cv_lastName := s_lastName student;
                     cv_email := s_email student;
                     cv_phone := s_phone student;
                     cv_address := s_address student;
                     cv_education := s_education student;
                     cv_skills := s_skills student;
                     cv_experience := s_experience student;
                     cv_projects := s_projects student;
                     cv_certifications := s_certifications student |}))
        | Threw _ => (db, fail 500 "Server error during CV save.")
        end
    end.

(** [app.get('/api/cv', ...)] *)
Definition get_api_cv (db : Db) (email : field) : Response :=
  if negb (truthy email) then fail 400 "Email is required."
  else
    match Student.findOne db (str email) with
    | None => fail 400 "Student not found."
    | Some student =>
        reply 200
          (BCv (s_id student)
             {| cv_firstName := s_firstName student;
                cv_lastName := s_lastName student;
                cv_email := s_email student;
                cv_phone := s_phone student;
                cv_address := s_address student;
                cv_education := s_education student;
                cv_skills := s_skills student;
                cv_experience := s_experience student;
                cv_projects := s_projects student;
                cv_certifications := s_certifications student |})
    end.

(** [role !== 'student' && role !== 'organization'] *)
Definition invalidRole (role : field) : bool :=
  match role with
  | Some r => negb (r =? "student") && negb (r =? "organization")
  | None => true
  end.

(** [app.post('/api/auth/register', ...)] *)
Definition post_api_auth_register (env : Env) (db : Db) (b : RegisterBody)
  : Db * Response :=
  if invalidRole (reg_role b)
  then
    (db,
     fail 400
       ("Invalid role. Must be " ++ dquote ++ "student" ++ dquote ++ " or "
          ++ dquote ++ "organization" ++ dquote ++ "."))
  else
    let emailExistsInStudent := Student.exists_ db (reg_email b) in
    let emailExistsInOrg := Organization.exists_ db (reg_email b) in
    if emailExistsInStudent || emailExistsInOrg
    then (db, fail 400 "An account with this email already exists.")
    else
      if str (reg_role b) =? "student"
      then
        if negb (truthy (reg_firstName b)) || negb (truthy (reg_lastName b))
           || negb (truthy (reg_email b)) || negb (truthy (reg_phone b))
           || negb (truthy (reg_password b))
        then (db, fail 400 "All student fields are required.")
        else
          let hashedPassword := bcrypt_hash (str (reg_password b)) (salt env) in
          let student :=
            Student.new env (str (reg_firstName b)) (str (reg_lastName b))
              (str (reg_email b)) (str (reg_phone b)) hashedPassword in
          match Student.insert db student with
          | Returned db' =>
              (db', reply 201 (BRegistered "Student registered successfully!" "student"))
          | Threw _ => (db, fail 500 "Server error during registration.")
          end
      else
        if negb (truthy (reg_orgName b)) || negb (truthy (reg_email b))
           || negb (truthy (reg_password b)) || negb (reg_orgTerms b)
        then
          (db, fail 400 "All organization fields and terms acceptance are required.")
        else
          let hashedPassword := bcrypt_hash (str (reg_password b)) (salt env) in
          let org :=
            Organization.new env (str (reg_orgName b)) (str (reg_email b))
              (orElse (reg_phone b) EmptyString) hashedPassword in
          match Organization.insert db org with
          | Returned db' =>
              (db',
               reply 201
                 (BRegistered "Organization registered successfully!" "organization"))
          | Threw _ => (db, fail 500 "Server error during registration.")
          end.

(** The paths of an account that login reads, whichever model it is. *)
Record User := {
  u_email : string;
  u_password : string;
  u_id : ObjectId
}.

Definition userOfStudent (s : StudentDoc) : User :=
  {| u_email := s_email s; u_password := s_password s; u_id := s_id s |}.

Definition userOfOrganization (o : OrganizationDoc) : User :=
  {| u_email := o_email o; u_password := o_password o; u_id := o_id o |}.

(** [app.post('/api/auth/login', ...)] *)
Definition post_api_auth_login (db : Db) (b : LoginBody) : Response :=
  if negb (truthy (login_email b)) || negb (truthy (login_password b))
  then fail 400 "Email and password are required."
  else
    let email := str (login_email b) in
    let password := str (login_password b) in
    let user := option_map userOfStudent (Student.findOne db email) in
    let role := "student" in
    let '(user, role) :=
      match user with
      | None =>
          (option_map userOfOrganization (Organization.findOne db email),
           "organization")
      | Some _ => (user, role)
      end in
    match user with
    | None => fail 400 "Invalid credentials."
    | Some user =>
        let isMatch := bcrypt_compare password (u_password user) in
        if negb isMatch then fail 400 "Invalid credentials."
        else
          reply 200
            (BLogin "Login successful" role (u_email user) (u_id user)
               (if role =? "organization" then Some (u_id user) else None))
    end.

(** [app.get('/api/posts', ...)] *)
Definition get_api_posts (db : Db) (orgId : field) : Response :=
  if truthy orgId
  then
    if negb (ObjectId_isValid (str orgId)) then fail 400 "Invalid orgId format"
    else
      match Post.findByOrgId db (str orgId) with
      | Returned posts => reply 200 (BPosts posts)
      | Threw _ => fail 500 "Failed to fetch posts"
      end
  else reply 200 (BPosts (Post.findActive db)).

(** [app.get('/api/posts/:id', ...)] *)
Definition get_api_posts_id (db : Db) (id : string) : Response :=
  if negb (ObjectId_isValid id) then fail 400 "Invalid post ID"
  else
    match Post.findById db id with
    | Returned None => fail 404 "Post not found"
    | Returned (Some post) => reply 200 (BPost post)
    | Threw _ => fail 500 "Failed to fetch post"
    end.

(** The object literal that both post routes build from the body. *)
Definition contentOf (b : PostBody) : Post.Content :=
  let start := parseDate (req_durationStart b) in
  let end_ := parseDate (req_durationEnd b) in
  let ddl := parseDate (req_deadline b) in
  {| Post.title := str (req_title b);
     Post.type := str (req_type b);
     Post.description := str (req_description b);
     Post.location := orElse (req_location b) "Remote";
     Post.durationStart := start;
     Post.durationEnd := end_;
     Post.deadline := ddl;
     Post.applicationLink := orElse (req_applicationLink b) EmptyString |}.

(** [app.post('/api/posts', ...)] *)
Definition post_api_posts (rev : PostSchemaRevision) (env : Env) (db : Db)
    (b : PostBody) : Db * Response :=
  let status := match req_status b with Some s => s | None => "draft" end in
  if negb (truthy (req_orgId b)) || negb (truthy (req_orgName b))
     || negb (truthy (req_title b)) || negb (truthy (req_type b))
     || negb (truthy (req_description b))
  then (db, fail 400 "orgId, orgName, title, type, and description are required.")
  else if negb (includes ["draft"; "active"] status)
  then
    (db,
     fail 400
       ("Status must be " ++ dquote ++ "draft" ++ dquote ++ " or "
          ++ dquote ++ "active" ++ dquote ++ "."))
  else if negb (ObjectId_isValid (str (req_orgId b)))
  then (db, fail 400 "Invalid orgId format")
  else
    let start := parseDate (req_durationStart b) in
    let end_ := parseDate (req_durationEnd b) in
    if startAfterEnd start end_
    then (db, fail 400 "Start date cannot be after end date.")
    else
      match
        Post.create rev env db (str (req_orgId b)) (str (req_orgName b))
          (contentOf b) status
      with
      | Returned (db', post) => (db', reply 201 (BPost post))
      | Threw (ValidationError errors) => (db, fail 400 (join "; " errors))
      | Threw CastError =>
          (db, fail 400 "Invalid data format. Check orgId and dates.")
      | Threw _ => (db, fail 500 "Failed to create post")
      end.

(** [app.put('/api/posts/:id', ...)]; the body's [orgId], [orgName] and
    [status] are not read. *)
Definition put_api_posts_id (rev : PostSchemaRevision) (env : Env) (db : Db)
    (id : string) (b : PostBody) : Db * Response :=
  if negb (truthy (req_title b)) || negb (truthy (req_type b))
     || negb (truthy (req_description b))
  then (db, fail 400 "Title, type, and description are required.")
  else
    let start := parseDate (req_durationStart b) in
    let end_ := parseDate (req_durationEnd b) in
    if startAfterEnd start end_
    then (db, fail 400 "Start date cannot be after end date.")
    else
      match Post.findByIdAndUpdate rev env db id (contentOf b) with
      | Returned (db', None) => (db', fail 404 "Post not found")
      | Returned (db', Some post) => (db', reply 200 (BPost post))
      | Threw (ValidationError errors) => (db, fail 400 (join "; " errors))
      | Threw _ => (db, fail 500 "Failed to update post")
      end.

(** [app.delete('/api/posts/:id', ...)] *)
Definition delete_api_posts_id (db : Db) (id : string) : Db * Response :=
  match Post.findByIdAndDelete db id with
  | Returned (db', None) => (db', fail 404 "Post not found")
  | Returned (db', Some _) => (db', reply 200 (BMessage "Post deleted successfully"))
  | Threw _ => (db, fail 500 "Failed to delete post")
  end.

End Routes.

(** ** Vocabulary of the properties *)

(** Every stored student email is as the schema's [trim] setter leaves it.
    The routes keep this true (see [routes_keep_emails_trimmed]). *)
Definition emailsTrimmed (db : Db) : Prop :=
  Forall (fun u => trim (s_email u) = s_email u) (students db).

(** A create request passes every check of the route and of the schema
    other than the ones on [applicationLink]. *)
Definition passesOtherChecks `{Platform} (b : PostBody) : Prop :=
  truthy (req_orgId b) = true
  /\ truthy (req_orgName b) = true
  /\ truthy (req_title b) = true
  /\ truthy (req_type b) = true
  /\ truthy (req_description b) = true
  /\ includes ["draft"; "active"]
       (match req_status b with Some s => s | None => "draft" end) = true
  /\ ObjectId_isValid (str (req_orgId b)) = true
  /\ startAfterEnd (parseDate (req_durationStart b)) (parseDate (req_durationEnd b))
     = false
  /\ Post.validateTitle (trim (str (req_title b))) = []
  /\ Post.validateType (str (req_type b)) = []
  /\ Post.validateDescription (str (req_description b)) = [].

(** The messages with which [POST /api/posts] rejects a request before it
    builds a document. *)
Definition createValidationMessages : list string :=
  ["orgId, orgName, title, type, and description are required.";
   "Status must be " ++ dquote ++ "draft" ++ dquote ++ " or "
     ++ dquote ++ "active" ++ dquote ++ ".";
   "Invalid orgId format";
   "Start date cannot be after end date."].

(** A request body with one date field replaced. *)
Definition withDurationStart (x : field) (b : PostBody) : PostBody :=
  {| req_orgId := req_orgId b;
     req_orgName := req_orgName b;
     req_title := req_title b;
     req_type := req_type b;
     req_description := req_description b;
     req_location := req_location b;
     req_durationStart := x;
     req_durationEnd := req_durationEnd b;
     req_deadline := req_deadline b;
     req_applicationLink := req_applicationLink b;
     req_status := req_status b |}.

Definition withDurationEnd (x : field) (b : PostBody) : PostBody :=
  {| req_orgId := req_orgId b;
     req_orgName := req_orgName b;
     req_title := req_title b;
     req_type := req_type b;
     req_description := req_description b;
     req_location := req_location b;
     req_durationStart := req_durationStart b;
     req_durationEnd := x;
     req_deadline := req_deadline b;
     req_applicationLink := req_applicationLink b;
     req_status := req_status b |}.

Definition withDeadline (x : field) (b : PostBody) : PostBody :=
  {| req_orgId := req_orgId b;
     req_orgName := req_orgName b;
     req_title := req_title b;
     req_type := req_type b;
     req_description := req_description b;
     req_location := req_location b;
     req_durationStart := req_durationStart b;
     req_durationEnd := req_durationEnd b;
     req_deadline := x;
     req_applicationLink := req_applicationLink b;
     req_status := req_status b |}.

(** Newest first. *)
Definition newerOrSame (p q : PostDoc) : Prop := (p_createdAt q <= p_createdAt p)%Z.

(** The paths of a post that no update may touch, with its identifier. *)
Definition ownerAndStatus (p : PostDoc) : ObjectId * ObjectId * string * string :=
  (p_id p, p_orgId p, p_orgName p, p_status p).

(** What the validators and the date rule of the post routes establish
    for a stored post. *)
Definition storedPostOk (rev : PostSchemaRevision) (p : PostDoc) : Prop :=
  p_orgName p <> EmptyString
  /\ p_title p <> EmptyString
  /\ (String.length (p_title p) <= 100)%nat
  /\ In (p_type p) ["Internship"; "Volunteering"; "Mentorship"; "Event"]
  /\ (20 <= String.length (p_description p) <= 2000)%nat
  /\ In (p_status p) ["draft"; "active"]
  /\ (forall s e,
         p_durationStart p = Some s -> p_durationEnd p = Some e -> (s <= e)%Z)
  /\ (rev = RequiredUrlLink -> startsWithHttp (p_applicationLink p) = true).

(** The public feed and the listing of one organization, as lists. *)
Definition listed (r : Response) : list PostDoc :=
  match body r with
  | BPosts l => l
  | _ => []
  end.

(** A login request. *)
Definition loginWith (email password : field) : LoginBody :=
  {| login_email := email; login_password := password |}.

(** ** A platform to run the routes on

    Used by the examples only: dates in the form YYYY-MM-DD (midnight
    UTC), identifiers of 24 hexadecimal digits, and a stand-in for bcrypt
    that keeps salt and password side by side. *)

Module Demo.

Definition digit (c : ascii) : option Z :=
  let n := nat_of_ascii c in
  if ((48 <=? n)%nat && (n <=? 57)%nat) then Some (Z.of_nat (n - 48)) else None.

Definition number (ds : list ascii) : option Z :=
  fold_left
    (fun acc c =>
       match acc, digit c with
       | Some a, Some d => Some (10 * a + d)%Z
       | _, _ => None
       end)
    ds (Some 0%Z).

Definition leapYear (y : Z) : bool :=
  ((y mod 4 =? 0) && negb (y mod 100 =? 0) || (y mod 400 =? 0))%Z.

Definition daysInMonth (y m : Z) : Z :=
  (if m =? 2 then (if leapYear y then 29 else 28)
   else if (m =? 4) || (m =? 6) || (m =? 9) || (m =? 11) then 30
   else 31)%Z.

(** Days between 1970-01-01 and the civil date. *)
Definition daysFromCivil (y m d : Z) : Z :=
  (let y' := if m <=? 2 then y - 1 else y in
   let era := y' / 400 in
   let yoe := y' - era * 400 in
   let doy := (153 * (if 2 <? m then m - 3 else m + 9) + 2) / 5 + d - 1 in
   let doe := yoe * 365 + yoe / 4 - yoe / 100 + doy in
   era * 146097 + doe - 719468)%Z.

Definition parseIsoDate (s : string) : option Z :=
  match list_ascii_of_string s with
  | [y1; y2; y3; y4; "-"%char; m1; m2; "-"%char; d1; d2] =>
      match number [y1; y2; y3; y4], number [m1; m2], number [d1; d2] with
      | Some y, Some m, Some d =>
          if ((1 <=? m) && (m <=? 12) && (1 <=? d) && (d <=? daysInMonth y m))%Z
          then Some (daysFromCivil y m d * 86400000)%Z
          else None
      | _, _, _ => None
      end
  | _ => None
  end.

Definition hexDigit (c : ascii) : bool :=
  let n := nat_of_ascii c in
  ((48 <=? n)%nat && (n <=? 57)%nat) || ((97 <=? n)%nat && (n <=? 102)%nat)
  || ((65 <=? n)%nat && (n <=? 70)%nat).

Definition lower (c : ascii) : ascii :=
  let n := nat_of_ascii c in
  if ((65 <=? n)%nat && (n <=? 90)%nat) then ascii_of_nat (n + 32) else c.

Definition hex24 (s : string) : option ObjectId :=
  let cs := list_ascii_of_string s in
  if ((List.length cs =? 24)%nat && forallb hexDigit cs)
  then Some (string_of_list_ascii (map lower cs))
  else None.

Definition hash (password salt : string) : string := salt ++ "$" ++ password.

Fixpoint endsWith (suffix s : string) : bool :=
  (s =? suffix)
  || match s with
     | String _ r => endsWith suffix r
     | EmptyString => false
     end.

Definition compare (password hashed : string) : bool :=
  endsWith ("$" ++ password) hashed.

Definition platform : Platform :=
  {| Date_parse := parseIsoDate;
     castObjectId := hex24;
     bcrypt_hash := hash;
     bcrypt_compare := compare |}.

Definition emptyDb : Db := {| students := []; organizations := []; posts := [] |}.

Definition acmeId : string := "507f1f77bcf86cd799439011".
Definition postId : string := "65a1b2c3d4e5f60718293a4b".

Definition env1 : Env := {| now := 1000; newId := postId; salt := "salt" |}.
Definition env2 : Env :=
  {| now := 2000; newId := "65a1b2c3d4e5f60718293a4c"; salt := "pepper" |}.

(** The example request of the specification: only the required fields. *)
Definition internBody : PostBody :=
  {| req_orgId := Some acmeId;
     req_orgName := Some "Acme";
     req_title := Some "Intern";
     req_type := Some "Internship";
     req_description := Some "xxxxxxxxxxxxxxxxxxxxxxxxx";
     req_location := None;
     req_durationStart := None;
     req_durationEnd := None;
     req_deadline := None;
     req_applicationLink := None;
     req_status := None |}.

(** A stored post with every optional path filled in. *)
Definition onsitePost : PostDoc :=
  {| p_id := postId;
     p_orgId := acmeId;
     p_orgName := "Acme";
     p_title := "Intern";
     p_type := "Internship";
     p_description := "xxxxxxxxxxxxxxxxxxxxxxxxx";
     p_location := "Onsite";
     p_durationStart := Some 1704067200000%Z;
     p_durationEnd := Some 1706745600000%Z;
     p_deadline := Some 1703980800000%Z;
     p_applicationLink := "https://acme.example/apply";
     p_status := "active";
     p_createdAt := 1000;
     p_updatedAt := 1000;
     p_v := Some 0%Z |}.

Definition onsiteDb : Db :=
  {| students := []; organizations := []; posts := [onsitePost] |}.

(** An update that names the three required fields and nothing else. *)
Definition retitleBody : PostBody :=
  {| req_orgId := None;
     req_orgName := None;
     req_title := Some "Senior intern";
     req_type := Some "Internship";
     req_description := Some "yyyyyyyyyyyyyyyyyyyyyyyyy";
     req_location := None;
     req_durationStart := None;
     req_durationEnd := None;
     req_deadline := None;
     req_applicationLink := None;
     req_status := None |}.

(** The create request with its duration running backwards. *)
Definition backwardsBody : PostBody :=
  withDurationEnd (Some "2024-01-01") (withDurationStart (Some "2024-02-01") internBody).

Definition otherOrgId : string := "507f1f77bcf86cd799439012".

Definition postOf (id orgId status : string) (createdAt : Z) : PostDoc :=
  {| p_id := id;
     p_orgId := orgId;
     p_orgName := "Org";
     p_title := "Intern";
     p_type := "Internship";
     p_description := "xxxxxxxxxxxxxxxxxxxxxxxxx";
     p_location := "Remote";
     p_durationStart := None;
     p_durationEnd := None;
     p_deadline := None;
     p_applicationLink := EmptyString;
     p_status := status;
     p_createdAt := createdAt;
     p_updatedAt := createdAt;
     p_v := Some 0%Z |}.

Definition draftOfAcme : PostDoc := postOf "65a1b2c3d4e5f60718293a01" acmeId "draft" 1000.
Definition activeOfOther : PostDoc :=
  postOf "65a1b2c3d4e5f60718293a02" otherOrgId "active" 2000.
Definition activeOfAcme : PostDoc := postOf "65a1b2c3d4e5f60718293a03" acmeId "active" 3000.

Definition feedDb : Db :=
  {| students := [];
     organizations := [];
     posts := [draftOfAcme; activeOfOther; activeOfAcme] |}.

Definition ada : StudentDoc :=
  {| s_id := "65a1b2c3d4e5f60718293b01";
     s_email := "ada@uni.example";
     s_password := hash "secret" "salt";
     s_firstName := Some "Ada";
     s_lastName := Some "Lovelace";
     s_phone := Some "555-0100";
     s_address := Some "12 St James Square";
     s_education := Some "Mathematics";
     s_skills := Some "Analysis";
     s_experience := Some "Notes on the Analytical Engine";
     s_projects := Some "Bernoulli numbers";
     s_certifications := Some "None";
     s_createdAt := 500;
     s_updatedAt := 500 |}.

Definition acme : OrganizationDoc :=
  {| o_id := acmeId;
     o_orgName := "Acme";
     o_email := "hr@acme.example";
     o_phone := EmptyString;
     o_password := hash "anvil" "salt";
     o_createdAt := 400;
     o_updatedAt := 400 |}.

Definition accountsDb : Db :=
  {| students := [ada]; organizations := [acme]; posts := [] |}.


Definition adaLogin : LoginBody :=
  {| login_email := Some "ada@uni.example"; login_password := Some "secret" |}.

(** The login of the student with the email padded by spaces. *)
Definition paddedLogin : LoginBody :=
  {| login_email := Some "  ada@uni.example "; login_password := Some "secret" |}.

Definition acmeLogin : LoginBody :=
  {| login_email := Some "hr@acme.example"; login_password := Some "anvil" |}.

(** A CV with the four required fields and no optional one. *)
Definition bareCv : CvBody :=
  {| cv_req_email := Some "ada@uni.example";
     cv_req_firstName := Some "Ada";
     cv_req_lastName := Some "King";
     cv_req_phone := Some "555-0199";
     cv_req_address := None;
     cv_req_education := None;
     cv_req_skills := None;
     cv_req_experience := None;
     cv_req_projects := None;
     cv_req_certifications := None |}.

Definition env3 : Env :=
  {| now := 3000; newId := "65a1b2c3d4e5f60718293b02"; salt := "salt" |}.

Definition activeBody : PostBody :=
  {| req_orgId := Some acmeId;
     req_orgName := Some "Acme";
     req_title := Some "  Open day  ";
     req_type := Some "Event";
     req_description := Some "Meet the team at the anvil works.";
     req_location := Some "Onsite";
     req_durationStart := Some "2024-01-01";
     req_durationEnd := Some "2024-02-01";
     req_deadline := None;
     req_applicationLink := Some "https://acme.example/open";
     req_status := Some "active" |}.

Definition graceBody : RegisterBody :=
  {| reg_role := Some "student";
     reg_firstName := Some "Grace";
     reg_lastName := Some "Hopper";
     reg_email := Some "grace@navy.example";
     reg_phone := Some "555-0142";
     reg_password := Some "cobol";
     reg_orgName := None;
     reg_orgTerms := false |}.

Definition initechBody : RegisterBody :=
  {| reg_role := Some "organization";
     reg_firstName := None;
     reg_lastName := None;
     reg_email := Some "jobs@initech.example";
     reg_phone := None;
     reg_password := Some "tps";
     reg_orgName := Some "Initech";
     reg_orgTerms := true |}.

End Demo.

(** * Properties *)

(** ** Strings *)

Lemma trimStart_head (s : string) :
  trimStart s = EmptyString
  \/ exists c r, trimStart s = String c r /\ isWhiteSpace c = false.
Proof.
  induction s as [|c r IH]; simpl.
  - now left.
  - destruct (isWhiteSpace c) eqn:E; [exact IH | right; eauto].
Qed.

Lemma trimEnd_head (c : ascii) (r : string) :
  isWhiteSpace c = false -> exists r', trimEnd (String c r) = String c r'.
Proof.
  intros E. simpl. destruct (trimEnd r); rewrite ?E; eauto.
Qed.

Lemma trimEnd_idem (s : string) : trimEnd (trimEnd s) = trimEnd s.
Proof.
  induction s as [|c r IH]; simpl; [reflexivity|].
  destruct (trimEnd r) as [|c' r'] eqn:E.
  - destruct (isWhiteSpace c) eqn:W; simpl; [reflexivity | now rewrite W].
  - change (trimEnd (String c (String c' r')) = String c (String c' r')).
    remember (String c' r') as t. simpl. rewrite IH. now subst t.
Qed.

Lemma trim_idem (s : string) : trim (trim s) = trim s.
Proof.
  unfold trim.
  destruct (trimStart_head s) as [E | (c & r & E & W)]; rewrite E.
  - reflexivity.
  - destruct (trimEnd_head c r W) as [r' E'].
    rewrite E'. simpl trimStart. rewrite W. rewrite <- E'. apply trimEnd_idem.
Qed.

(** ** Lists *)

Lemma find_replaceFirst {A : Type} (P : A -> bool) (f : A -> A) (l : list A) :
  (forall x, P x = true -> P (f x) = true) ->
  List.find P (replaceFirst P f l) = option_map f (List.find P l).
Proof.
  intros Pf. induction l as [|x r IH]; simpl; [reflexivity|].
  destruct (P x) eqn:E; simpl.
  - now rewrite (Pf x E).
  - now rewrite E.
Qed.

Lemma map_replaceFirst {A B : Type} (g : A -> B) (P : A -> bool) (f : A -> A)
    (l : list A) :
  (forall x, g (f x) = g x) -> map g (replaceFirst P f l) = map g l.
Proof.
  intros gf. induction l as [|x r IH]; simpl; [reflexivity|].
  destruct (P x); simpl; [now rewrite gf | now rewrite IH].
Qed.

(** ** Sorting newest first *)

Lemma insertDesc_perm (p : PostDoc) (l : list PostDoc) :
  Permutation (p :: l) (Post.insertDesc p l).
Proof.
  induction l as [|q r IH]; simpl; [reflexivity|].
  destruct (p_createdAt q <=? p_createdAt p)%Z; [reflexivity|].
  rewrite perm_swap. now apply perm_skip.
Qed.

Lemma sortByCreatedAtDesc_perm (l : list PostDoc) :
  Permutation l (Post.sortByCreatedAtDesc l).
Proof.
  induction l as [|p r IH]; simpl; [constructor|].
  rewrite <- insertDesc_perm. now apply perm_skip.
Qed.

Lemma insertDesc_sorted (p : PostDoc) (l : list PostDoc) :
  StronglySorted newerOrSame l -> StronglySorted newerOrSame (Post.insertDesc p l).
Proof.
  induction 1 as [|q r Hr IH Hq]; simpl.
  - repeat constructor.
  - destruct (p_createdAt q <=? p_createdAt p)%Z eqn:E.
    + apply Z.leb_le in E. constructor; [now constructor|].
      constructor; [exact E|].
      eapply Forall_impl; [|exact Hq]. unfold newerOrSame. intros x Hx. lia.
    + apply Z.leb_gt in E. constructor; [exact IH|].
      eapply Permutation_Forall; [apply insertDesc_perm|].
      constructor; [unfold newerOrSame; lia | exact Hq].
Qed.

Lemma sortByCreatedAtDesc_sorted (l : list PostDoc) :
  StronglySorted newerOrSame (Post.sortByCreatedAtDesc l).
Proof.
  induction l as [|p r IH]; simpl; [constructor | now apply insertDesc_sorted].
Qed.

Lemma StronglySorted_map_selectWithoutV (l : list PostDoc) :
  StronglySorted newerOrSame l ->
  StronglySorted newerOrSame (map Post.selectWithoutV l).
Proof.
  induction 1 as [|q r Hr IH Hq]; simpl; constructor; [exact IH|].
  apply Forall_map. exact Hq.
Qed.

(** ** Listing posts *)

Section Listing.

Context `{Platform}.

(** C7. [GET /api/posts] without an orgId answers 200 with exactly the
    posts whose status is "active" (a permutation of them), each without
    its version key [__v], newest first by creation time; with a
    well-formed orgId it answers 200 with exactly the posts of that
    organization, whatever their status, newest first. *)
Theorem list_posts_modes (db : Db) :
  (forall orgId : field,
      truthy orgId = false ->
      exists l,
        get_api_posts db orgId = reply 200 (BPosts l)
        /\ Permutation l
             (map Post.selectWithoutV
                (filter (fun p => p_status p =? "active") (posts db)))
        /\ Forall (fun p => p_v p = None) l
        /\ StronglySorted newerOrSame l)
  /\ (forall (orgId : string) (oid : ObjectId),
         truthy (Some orgId) = true ->
         castObjectId orgId = Some oid ->
         exists l,
           get_api_posts db (Some orgId) = reply 200 (BPosts l)
           /\ Permutation l (filter (fun p => p_orgId p =? oid) (posts db))
           /\ (forall p, In p l <-> In p (posts db) /\ p_orgId p = oid)
           /\ StronglySorted newerOrSame l).
Proof.
  split.
  - intros orgId Hfalsy. unfold get_api_posts. rewrite Hfalsy.
    exists (Post.findActive db). unfold Post.findActive.
    repeat split.
    + apply Permutation_map. symmetry. apply sortByCreatedAtDesc_perm.
    + apply Forall_map. apply Forall_forall. reflexivity.
    + apply StronglySorted_map_selectWithoutV, sortByCreatedAtDesc_sorted.
  - intros orgId oid Ht Hcast. unfold get_api_posts, ObjectId_isValid.
    rewrite Ht. simpl str. rewrite Hcast. simpl.
    unfold Post.findByOrgId. rewrite Hcast.
    eexists. split; [reflexivity|].
    assert (Hperm := sortByCreatedAtDesc_perm
                       (filter (fun p => p_orgId p =? oid) (posts db))).
    split; [symmetry; exact Hperm|].
    split; [|apply sortByCreatedAtDesc_sorted].
    intros p. rewrite <- (String.eqb_eq (p_orgId p) oid).
    rewrite <- (filter_In (fun p => p_orgId p =? oid)).
    split; apply Permutation_in; [symmetry|]; exact Hperm.
Qed.

End Listing.

(** ** Dates in post requests *)

Section Dates.

Context `{Platform}.

Lemma parseDate_unparseable (s : string) :
  Date_parse s = None -> parseDate (Some s) = None.
Proof. intros E. simpl. rewrite E. now destruct (s =? EmptyString). Qed.

(** The dates of a post that was created: the document appended to the
    collection holds what [parseDate] made of the three fields. *)
Lemma created_dates (rev : PostSchemaRevision) (env : Env) (db db' : Db)
    (b : PostBody) (post : PostDoc) :
  post_api_posts rev env db b = (db', reply 201 (BPost post)) ->
  posts db' = (posts db ++ [post])%list
  /\ p_durationStart post = parseDate (req_durationStart b)
  /\ p_durationEnd post = parseDate (req_durationEnd b)
  /\ p_deadline post = parseDate (req_deadline b).
Proof.
  unfold post_api_posts.
  destruct (negb (truthy (req_orgId b)) || negb (truthy (req_orgName b))
            || negb (truthy (req_title b)) || negb (truthy (req_type b))
            || negb (truthy (req_description b))); [discriminate|].
  destruct (negb (includes _ _)); [discriminate|].
  destruct (negb (ObjectId_isValid _)); [discriminate|].
  destruct (startAfterEnd _ _); [discriminate|].
  unfold Post.create.
  destruct (castObjectId (str (req_orgId b))) as [oid|]; [|discriminate].
  destruct (_ ++ _)%list; [|discriminate].
  intros E. injection E as <- <-. repeat split.
Qed.

(** The dates of a post that was updated: the document stored under the
    identifier holds what [parseDate] made of the three fields. *)
Lemma updated_dates (rev : PostSchemaRevision) (env : Env) (db db' : Db)
    (id : string) (b : PostBody) (post : PostDoc) :
  put_api_posts_id rev env db id b = (db', reply 200 (BPost post)) ->
  Post.findById db' id = Returned (Some post)
  /\ p_durationStart post = parseDate (req_durationStart b)
  /\ p_durationEnd post = parseDate (req_durationEnd b)
  /\ p_deadline post = parseDate (req_deadline b).
Proof.
  unfold put_api_posts_id.
  destruct (negb (truthy (req_title b)) || negb (truthy (req_type b))
            || negb (truthy (req_description b))); [discriminate|].
  destruct (startAfterEnd _ _); [discriminate|].
  unfold Post.findByIdAndUpdate, Post.findById.
  destruct (castObjectId id) as [oid|]; [|discriminate].
  destruct (Post.validateContent rev (Post.cast rev (contentOf b))); [|discriminate].
  destruct (List.find (Post.hasId oid) (posts db)) as [old|] eqn:Hfind;
    [|discriminate].
  intros E. injection E as <- <-. cbn [posts Post.withPosts].
  rewrite find_replaceFirst by (intros x Hx; exact Hx).
  rewrite Hfind. repeat split.
Qed.

(** C6. A [durationStart], [durationEnd] or [deadline] supplied as a
    string that does not parse as a date is treated exactly as if the
    field were absent: create and update give the same database and the
    same response as for the request without the field, the content of
    the document built from the request has no date there, and what is
    stored has no date there: the post appended by a create answered 201
    and the post found under the identifier after an update answered
    200. *)
Theorem unparseable_date_is_absent (rev : PostSchemaRevision) (env : Env)
    (db : Db) (id : string) (b : PostBody) (s : string) :
  Date_parse s = None ->
  (post_api_posts rev env db (withDurationStart (Some s) b)
     = post_api_posts rev env db (withDurationStart None b)
   /\ post_api_posts rev env db (withDurationEnd (Some s) b)
      = post_api_posts rev env db (withDurationEnd None b)
   /\ post_api_posts rev env db (withDeadline (Some s) b)
      = post_api_posts rev env db (withDeadline None b))
  /\ (put_api_posts_id rev env db id (withDurationStart (Some s) b)
        = put_api_posts_id rev env db id (withDurationStart None b)
      /\ put_api_posts_id rev env db id (withDurationEnd (Some s) b)
         = put_api_posts_id rev env db id (withDurationEnd None b)
      /\ put_api_posts_id rev env db id (withDeadline (Some s) b)
         = put_api_posts_id rev env db id (withDeadline None b))
  /\ (Post.durationStart (contentOf (withDurationStart (Some s) b)) = None
      /\ Post.durationEnd (contentOf (withDurationEnd (Some s) b)) = None
      /\ Post.deadline (contentOf (withDeadline (Some s) b)) = None)
  /\ (forall db' post,
         (post_api_posts rev env db (withDurationStart (Some s) b)
          = (db', reply 201 (BPost post)) ->
          posts db' = (posts db ++ [post])%list /\ p_durationStart post = None)
         /\ (post_api_posts rev env db (withDurationEnd (Some s) b)
             = (db', reply 201 (BPost post)) ->
             posts db' = (posts db ++ [post])%list /\ p_durationEnd post = None)
         /\ (post_api_posts rev env db (withDeadline (Some s) b)
             = (db', reply 201 (BPost post)) ->
             posts db' = (posts db ++ [post])%list /\ p_deadline post = None))
  /\ (forall db' post,
         (put_api_posts_id rev env db id (withDurationStart (Some s) b)
          = (db', reply 200 (BPost post)) ->
          Post.findById db' id = Returned (Some post)
          /\ p_durationStart post = None)
         /\ (put_api_posts_id rev env db id (withDurationEnd (Some s) b)
             = (db', reply 200 (BPost post)) ->
             Post.findById db' id = Returned (Some post)
             /\ p_durationEnd post = None)
         /\ (put_api_posts_id rev env db id (withDeadline (Some s) b)
             = (db', reply 200 (BPost post)) ->
             Post.findById db' id = Returned (Some post)
             /\ p_deadline post = None)).
Proof.
  intros E. apply parseDate_unparseable in E.
  assert (Hstored :
            (forall db' post,
                (post_api_posts rev env db (withDurationStart (Some s) b)
                 = (db', reply 201 (BPost post)) ->
                 posts db' = (posts db ++ [post])%list /\ p_durationStart post = None)
                /\ (post_api_posts rev env db (withDurationEnd (Some s) b)
                    = (db', reply 201 (BPost post)) ->
                    posts db' = (posts db ++ [post])%list /\ p_durationEnd post = None)
                /\ (post_api_posts rev env db (withDeadline (Some s) b)
                    = (db', reply 201 (BPost post)) ->
                    posts db' = (posts db ++ [post])%list /\ p_deadline post = None))
            /\ (forall db' post,
                   (put_api_posts_id rev env db id (withDurationStart (Some s) b)
                    = (db', reply 200 (BPost post)) ->
                    Post.findById db' id = Returned (Some post)
                    /\ p_durationStart post = None)
                   /\ (put_api_posts_id rev env db id (withDurationEnd (Some s) b)
                       = (db', reply 200 (BPost post)) ->
                       Post.findById db' id = Returned (Some post)
                       /\ p_durationEnd post = None)
                   /\ (put_api_posts_id rev env db id (withDeadline (Some s) b)
                       = (db', reply 200 (BPost post)) ->
                       Post.findById db' id = Returned (Some post)
                       /\ p_deadline post = None))).
  { split; intros db' post; (split; [|split]); intros Hrun.
    - destruct (created_dates _ _ _ _ _ _ Hrun) as (Hposts & Hd & _ & _).
      split; [exact Hposts | now rewrite Hd].
    - destruct (created_dates _ _ _ _ _ _ Hrun) as (Hposts & _ & Hd & _).
      split; [exact Hposts | now rewrite Hd].
    - destruct (created_dates _ _ _ _ _ _ Hrun) as (Hposts & _ & _ & Hd).
      split; [exact Hposts | now rewrite Hd].
    - destruct (updated_dates _ _ _ _ _ _ _ Hrun) as (Hfound & Hd & _ & _).
      split; [exact Hfound | now rewrite Hd].
    - destruct (updated_dates _ _ _ _ _ _ _ Hrun) as (Hfound & _ & Hd & _).
      split; [exact Hfound | now rewrite Hd].
    - destruct (updated_dates _ _ _ _ _ _ _ Hrun) as (Hfound & _ & _ & Hd).
      split; [exact Hfound | now rewrite Hd]. }
  destruct Hstored as [Hcreated Hupdated].
  split; [|split; [|split; [|split; [exact Hcreated | exact Hupdated]]]];
  unfold post_api_posts, put_api_posts_id, contentOf.
  all: cbn [withDurationStart withDurationEnd withDeadline req_orgId req_orgName
         req_title req_type req_description req_location req_durationStart
         req_durationEnd req_deadline req_applicationLink req_status
         Post.durationStart Post.durationEnd Post.deadline].
  all: rewrite E; change (parseDate None) with (@None Z).
  all: repeat split; reflexivity.
Qed.

End Dates.

(** ** Creating posts *)

Section Creating.

Context `{Platform}.

Lemma startAfterEnd_gt (s e : Z) :
  (s > e)%Z -> startAfterEnd (Some s) (Some e) = true.
Proof. intros Hgt. simpl. apply Z.ltb_lt. lia. Qed.

(** C3. When [durationStart] and [durationEnd] both parse and the start
    is after the end, [POST /api/posts] answers 400 with one of the
    route's validation messages and the database is as before: no
    document is persisted. *)
Theorem create_rejects_start_after_end (rev : PostSchemaRevision) (env : Env)
    (db : Db) (b : PostBody) (s e : Z) :
  parseDate (req_durationStart b) = Some s ->
  parseDate (req_durationEnd b) = Some e ->
  (s > e)%Z ->
  exists msg,
    post_api_posts rev env db b = (db, fail 400 msg)
    /\ In msg createValidationMessages.
Proof.
  intros Hs He Hgt. unfold post_api_posts.
  destruct (negb (truthy (req_orgId b)) || negb (truthy (req_orgName b))
            || negb (truthy (req_title b)) || negb (truthy (req_type b))
            || negb (truthy (req_description b))).
  { eexists. split; [reflexivity | simpl; auto]. }
  destruct (negb (includes ["draft"; "active"]
                    match req_status b with Some s0 => s0 | None => "draft" end)).
  { eexists. split; [reflexivity | simpl; auto]. }
  destruct (negb (ObjectId_isValid (str (req_orgId b)))).
  { eexists. split; [reflexivity | simpl; auto]. }
  rewrite Hs, He, (startAfterEnd_gt s e Hgt).
  eexists. split; [reflexivity | simpl; auto 6].
Qed.

(** When the earlier checks of the route pass, the message is the one
    about the dates. *)
Lemma create_start_after_end_message (rev : PostSchemaRevision) (env : Env)
    (db : Db) (b : PostBody) (s e : Z) :
  truthy (req_orgId b) = true ->
  truthy (req_orgName b) = true ->
  truthy (req_title b) = true ->
  truthy (req_type b) = true ->
  truthy (req_description b) = true ->
  includes ["draft"; "active"]
    (match req_status b with Some st => st | None => "draft" end) = true ->
  ObjectId_isValid (str (req_orgId b)) = true ->
  parseDate (req_durationStart b) = Some s ->
  parseDate (req_durationEnd b) = Some e ->
  (s > e)%Z ->
  post_api_posts rev env db b = (db, fail 400 "Start date cannot be after end date.").
Proof.
  intros Ho Hn Ht Hty Hd Hst Hid Hs He Hgt.
  unfold post_api_posts.
  rewrite Ho, Hn, Ht, Hty, Hd, Hst, Hid. cbn [negb orb].
  now rewrite Hs, He, (startAfterEnd_gt s e Hgt).
Qed.

(** The update route applies the same rule. *)
Lemma update_rejects_start_after_end (rev : PostSchemaRevision) (env : Env)
    (db : Db) (id : string) (b : PostBody) (s e : Z) :
  parseDate (req_durationStart b) = Some s ->
  parseDate (req_durationEnd b) = Some e ->
  (s > e)%Z ->
  exists msg, put_api_posts_id rev env db id b = (db, fail 400 msg).
Proof.
  intros Hs He Hgt. unfold put_api_posts_id.
  destruct (negb (truthy (req_title b)) || negb (truthy (req_type b))
            || negb (truthy (req_description b))).
  - eexists; reflexivity.
  - rewrite Hs, He, (startAfterEnd_gt s e Hgt). eexists; reflexivity.
Qed.

End Creating.

(** ** Identifiers in post routes *)

Section Identifiers.

Context `{Platform}.

(** C10. [DELETE /api/posts/:id] does not check the identifier before
    it queries: for an id that is not a well-formed identifier the
    query throws, the route answers 500 (not 400, not 404) and the
    database is as before, whereas [GET /api/posts/:id] answers 400
    before any query. *)
Theorem delete_malformed_id_is_server_error (db : Db) (id : string) :
  ObjectId_isValid id = false ->
  delete_api_posts_id db id = (db, fail 500 "Failed to delete post")
  /\ get_api_posts_id db id = fail 400 "Invalid post ID".
Proof.
  unfold ObjectId_isValid, delete_api_posts_id, get_api_posts_id,
    Post.findByIdAndDelete, ObjectId_isValid.
  destruct (castObjectId id); [discriminate | intros _; split; reflexivity].
Qed.

End Identifiers.

(** ** Updating posts *)

Section Updating.

Context `{Platform}.

(** Under the revision that requires a URL, the content built from a
    request without applicationLink never passes the validators. *)
Lemma required_url_rejects_absent_link (b : PostBody) :
  req_applicationLink b = None ->
  Post.validateContent RequiredUrlLink (Post.cast RequiredUrlLink (contentOf b)) <> [].
Proof.
  intros Hlink Hvalid. unfold Post.validateContent, contentOf in Hvalid.
  cbn in Hvalid. rewrite Hlink in Hvalid. cbn in Hvalid.
  repeat apply app_eq_nil in Hvalid as [_ Hvalid].
  discriminate.
Qed.

(** An update of an id that no stored post has is answered 404 and
    changes nothing. *)
Lemma put_unknown_id (rev : PostSchemaRevision) (env : Env) (db : Db)
    (id : string) (b : PostBody) (r : Response) :
  status r = 404%Z ->
  snd (put_api_posts_id rev env db id b) = r ->
  put_api_posts_id rev env db id b = (db, fail 404 "Post not found")
  /\ Post.findById db id = Returned None.
Proof.
  intros Hstatus <-. revert Hstatus. unfold put_api_posts_id, Post.findById.
  destruct (negb (truthy (req_title b)) || negb (truthy (req_type b))
            || negb (truthy (req_description b))); [discriminate|].
  destruct (startAfterEnd _ _); [discriminate|].
  unfold Post.findByIdAndUpdate.
  destruct (castObjectId id) as [oid|]; [|discriminate].
  destruct (Post.validateContent rev (Post.cast rev (contentOf b))); [|discriminate].
  destruct (List.find (Post.hasId oid) (posts db)); [discriminate|].
  intros _. split; reflexivity.
Qed.

(** What a 200 from [PUT /api/posts/:id] tells: the id was cast, the
    update passed the validators, a stored post had the id, and it was
    overwritten in place. *)
Lemma put_success_inv (rev : PostSchemaRevision) (env : Env) (db db' : Db)
    (id : string) (b : PostBody) (post : PostDoc) :
  put_api_posts_id rev env db id b = (db', reply 200 (BPost post)) ->
  exists oid old,
    castObjectId id = Some oid
    /\ List.find (Post.hasId oid) (posts db) = Some old
    /\ Post.validateContent rev (Post.cast rev (contentOf b)) = []
    /\ post = Post.apply env (Post.cast rev (contentOf b)) old
    /\ db' = Post.withPosts db
               (replaceFirst (Post.hasId oid)
                  (Post.apply env (Post.cast rev (contentOf b))) (posts db)).
Proof.
  unfold put_api_posts_id.
  destruct (negb (truthy (req_title b)) || negb (truthy (req_type b))
            || negb (truthy (req_description b))); [discriminate|].
  destruct (startAfterEnd _ _); [discriminate|].
  unfold Post.findByIdAndUpdate.
  destruct (castObjectId id) as [oid|]; [|discriminate].
  destruct (Post.validateContent rev (Post.cast rev (contentOf b))); [|discriminate].
  destruct (List.find (Post.hasId oid) (posts db)) as [old|] eqn:Hfind;
    cbn [option_map]; [|discriminate].
  intros E. injection E as Hdb Hpost. exists oid, old. now subst.
Qed.

(** Every outcome of the route leaves identifier, owner and status of
    every stored post as they were. *)
Lemma put_frame (rev : PostSchemaRevision) (env : Env) (db : Db) (id : string)
    (b : PostBody) :
  map ownerAndStatus (posts (fst (put_api_posts_id rev env db id b)))
  = map ownerAndStatus (posts db).
Proof.
  unfold put_api_posts_id.
  destruct (negb (truthy (req_title b)) || negb (truthy (req_type b))
            || negb (truthy (req_description b))); [reflexivity|].
  destruct (startAfterEnd _ _); [reflexivity|].
  unfold Post.findByIdAndUpdate.
  destruct (castObjectId id) as [oid|]; [|reflexivity].
  destruct (Post.validateContent rev (Post.cast rev (contentOf b))); [|reflexivity].
  assert (Hmap : map ownerAndStatus
                   (replaceFirst (Post.hasId oid)
                      (Post.apply env (Post.cast rev (contentOf b))) (posts db))
                 = map ownerAndStatus (posts db))
    by (apply map_replaceFirst; reflexivity).
  destruct (List.find (Post.hasId oid) (posts db)); [exact Hmap | reflexivity].
Qed.

(** C5. [PUT /api/posts/:id] never changes [status], [orgId] or
    [orgName]: whatever the outcome, every stored post keeps them, and
    after a successful update the stored post carries the status, orgId
    and orgName it had before. *)
Theorem update_keeps_status_and_owner (rev : PostSchemaRevision) (env : Env)
    (db : Db) (id : string) (b : PostBody) :
  map ownerAndStatus (posts (fst (put_api_posts_id rev env db id b)))
  = map ownerAndStatus (posts db)
  /\ (forall db' post,
         put_api_posts_id rev env db id b = (db', reply 200 (BPost post)) ->
         exists old,
           Post.findById db id = Returned (Some old)
           /\ Post.findById db' id = Returned (Some post)
           /\ p_status post = p_status old
           /\ p_orgId post = p_orgId old
           /\ p_orgName post = p_orgName old).
Proof.
  split; [apply put_frame|].
  intros db' post Hput.
  destruct (put_success_inv _ _ _ _ _ _ _ Hput)
    as (oid & old & Hcast & Hfind & _ & Hpost & Hdb).
  exists old. unfold Post.findById. rewrite Hcast, Hfind. subst db' post.
  cbn [posts Post.withPosts].
  rewrite find_replaceFirst by (intros x Hx; exact Hx).
  rewrite Hfind. repeat split; reflexivity.
Qed.

(** Under the revision that requires a URL, a request without
    applicationLink has the message of the [required] validator among
    its validation errors. *)
Lemma required_url_link_error (b : PostBody) :
  req_applicationLink b = None ->
  In "Path `applicationLink` is required."
    (Post.validateContent RequiredUrlLink (Post.cast RequiredUrlLink (contentOf b))).
Proof.
  intros Hlink. unfold Post.validateContent, contentOf.
  cbn [Post.cast Post.applicationLink Post.setApplicationLink]. rewrite Hlink.
  apply in_or_app. right. apply in_or_app. right. apply in_or_app. right.
  cbn. now left.
Qed.

(** C4, as amended.  After a successful [PUT /api/posts/:id] the stored
    post has every omitted field among location, durationStart,
    durationEnd, deadline and applicationLink at its default ("Remote",
    no date, the empty string), whatever was stored before; a request
    without applicationLink succeeds under the optional-link revision
    only: under the revision that requires a URL the database is as
    before and the answer is 400, or 500; it is 500 exactly when the
    request passes the checks of the route and the id is malformed, and
    when the request passes them and the id is well-formed it is the 400
    of the validators, whose errors include that the link is required. *)
Theorem update_resets_omitted_fields (rev : PostSchemaRevision) (env : Env)
    (db : Db) (id : string) (b : PostBody) :
  (forall db' post,
      put_api_posts_id rev env db id b = (db', reply 200 (BPost post)) ->
      Post.findById db' id = Returned (Some post)
      /\ (req_location b = None -> p_location post = "Remote")
      /\ (req_durationStart b = None -> p_durationStart post = None)
      /\ (req_durationEnd b = None -> p_durationEnd post = None)
      /\ (req_deadline b = None -> p_deadline post = None)
      /\ (req_applicationLink b = None ->
          p_applicationLink post = EmptyString /\ rev = OptionalLink))
  /\ (rev = RequiredUrlLink ->
      req_applicationLink b = None ->
      exists r,
        put_api_posts_id rev env db id b = (db, r)
        /\ (status r = 400%Z \/ status r = 500%Z)
        /\ (status r = 500%Z <->
            truthy (req_title b) = true
            /\ truthy (req_type b) = true
            /\ truthy (req_description b) = true
            /\ startAfterEnd (parseDate (req_durationStart b))
                 (parseDate (req_durationEnd b)) = false
            /\ castObjectId id = None)
        /\ (truthy (req_title b) = true ->
            truthy (req_type b) = true ->
            truthy (req_description b) = true ->
            startAfterEnd (parseDate (req_durationStart b))
              (parseDate (req_durationEnd b)) = false ->
            castObjectId id <> None ->
            exists errors,
              r = fail 400 (join "; " errors)
              /\ In "Path `applicationLink` is required." errors)).
Proof.
  split.
  - intros db' post Hput.
    destruct (put_success_inv _ _ _ _ _ _ _ Hput)
      as (oid & old & Hcast & Hfind & Hvalid & Hpost & Hdb).
    split.
    { unfold Post.findById. rewrite Hcast. subst db' post.
      cbn [posts Post.withPosts].
      rewrite find_replaceFirst by (intros x Hx; exact Hx).
      now rewrite Hfind. }
    subst post. cbn.
    split; [intros E; now rewrite E|].
    split; [intros E; now rewrite E|].
    split; [intros E; now rewrite E|].
    split; [intros E; now rewrite E|].
    intros E. destruct rev; [now rewrite E|].
    exfalso. exact (required_url_rejects_absent_link b E Hvalid).
  - intros -> Hlink. unfold put_api_posts_id.
    destruct (truthy (req_title b)); cbn [negb orb].
    2:{ eexists. split; [reflexivity|]. split; [now left|].
        split; [split; [discriminate | intros (E & _); discriminate E]|].
        intros E; discriminate E. }
    destruct (truthy (req_type b)); cbn [negb orb].
    2:{ eexists. split; [reflexivity|]. split; [now left|].
        split; [split; [discriminate | intros (_ & E & _); discriminate E]|].
        intros _ E; discriminate E. }
    destruct (truthy (req_description b)); cbn [negb orb].
    2:{ eexists. split; [reflexivity|]. split; [now left|].
        split; [split; [discriminate | intros (_ & _ & E & _); discriminate E]|].
        intros _ _ E; discriminate E. }
    destruct (startAfterEnd _ _).
    { eexists. split; [reflexivity|]. split; [now left|].
      split; [split; [discriminate | intros (_ & _ & _ & E & _); discriminate E]|].
      intros _ _ _ E; discriminate E. }
    unfold Post.findByIdAndUpdate.
    destruct (castObjectId id) as [oid|].
    2:{ eexists. split; [reflexivity|]. split; [now right|].
        split; [split; [intros _; repeat split | reflexivity]|].
        intros _ _ _ _ E; now contradiction E. }
    pose proof (required_url_link_error b Hlink) as Hin.
    destruct (Post.validateContent RequiredUrlLink
                (Post.cast RequiredUrlLink (contentOf b))) as [|m errs] eqn:Hvalid;
      [contradiction Hin|].
    eexists. split; [reflexivity|]. split; [now left|].
    split; [split; [discriminate | intros (_ & _ & _ & _ & E); discriminate E]|].
    intros _ _ _ _ _. exists (m :: errs). split; [reflexivity | exact Hin].
Qed.

End Updating.

(** ** The application link at creation *)

Section ApplicationLink.

Context `{Platform}.

Lemma truthy_str (x : field) : truthy x = true -> (str x =? EmptyString) = false.
Proof.
  destruct x as [s|]; simpl; [|discriminate].
  now destruct (s =? EmptyString).
Qed.

Lemma isValid_cast (s : string) :
  ObjectId_isValid s = true -> exists oid, castObjectId s = Some oid.
Proof.
  unfold ObjectId_isValid. destruct (castObjectId s) as [oid|]; [eauto | discriminate].
Qed.

(** C1, as amended.  A create request without applicationLink that
    passes every other check is answered by the schema revision: with
    the optional link it succeeds (201), one document is appended and
    its applicationLink is the empty string; with the required URL it is
    rejected (400, the link is required) and nothing is persisted. *)
Theorem create_without_link_by_revision (rev : PostSchemaRevision) (env : Env)
    (db : Db) (b : PostBody) :
  req_applicationLink b = None ->
  passesOtherChecks b ->
  match rev with
  | OptionalLink =>
      exists post,
        post_api_posts rev env db b
        = (Post.withPosts db (posts db ++ [post])%list, reply 201 (BPost post))
        /\ p_applicationLink post = EmptyString
  | RequiredUrlLink =>
      post_api_posts rev env db b
      = (db, fail 400 "Path `applicationLink` is required.")
  end.
Proof.
  intros Hlink (Ho & Hn & Ht & Hty & Hd & Hst & Hid & Hdates & Vt & Vty & Vd).
  destruct (isValid_cast _ Hid) as [oid Hcast].
  assert (Hname : Post.validateOrgName (str (req_orgName b)) = []).
  { unfold Post.validateOrgName, firstError, required. cbn.
    now rewrite (truthy_str _ Hn). }
  assert (Hstatus :
            Post.validateStatus
              (match req_status b with Some s => s | None => "draft" end) = []).
  { unfold Post.validateStatus, firstError, enum. cbn [List.find fst negb].
    now rewrite Hst. }
  unfold post_api_posts.
  rewrite Ho, Hn, Ht, Hty, Hd, Hst, Hid, Hdates. cbn [negb orb].
  unfold Post.create, Post.castOrgIdError. rewrite Hcast, Hname, Hstatus.
  unfold Post.validateContent, contentOf.
  cbn [Post.cast Post.title Post.type Post.description Post.applicationLink].
  rewrite Vt, Vty, Vd, Hlink.
  destruct rev; cbn.
  - eexists. split; reflexivity.
  - reflexivity.
Qed.

End ApplicationLink.

(** ** Accounts *)

Section Accounts.

Context `{Platform}.

Lemma Student_findOne_In (db : Db) (email : string) (u : StudentDoc) :
  Student.findOne db email = Some u ->
  In u (students db) /\ s_email u = trim email.
Proof.
  unfold Student.findOne. intros E. apply find_some in E as [Hin Heq].
  split; [exact Hin | now apply String.eqb_eq].
Qed.

Lemma Organization_findOne_In (db : Db) (email : string) (o : OrganizationDoc) :
  Organization.findOne db email = Some o ->
  In o (organizations db) /\ o_email o = email.
Proof.
  unfold Organization.findOne. intros E. apply find_some in E as [Hin Heq].
  split; [exact Hin | now apply String.eqb_eq].
Qed.



(** C8, as amended.  A successful login with a string email reports the
    role of the collection in which the account was found, and the email
    in the response is held by that collection: role "student" only when
    the Student collection holds the supplied email with its surrounding
    white space trimmed (the supplied email itself when it has none),
    role "organization" only when the Organization collection holds the
    supplied email exactly and the Student collection does not hold its
    trimmed form.  The password takes no part in the choice of the
    role. *)
Theorem login_role_of_holding_collection (db : Db) (b : LoginBody)
    (message role email : string) (id : ObjectId) (orgId : option ObjectId) :
  post_api_auth_login db b = reply 200 (BLogin message role email id orgId) ->
  (role = "student" \/ role = "organization")
  /\ (role = "student" ->
      In email (map s_email (students db))
      /\ email = trim (str (login_email b))
      /\ (trim (str (login_email b)) = str (login_email b) ->
          In (str (login_email b)) (map s_email (students db))))
  /\ (role = "organization" ->
      In (str (login_email b)) (map o_email (organizations db))
      /\ email = str (login_email b)
      /\ ~ In (trim (str (login_email b))) (map s_email (students db))).
Proof.
  unfold post_api_auth_login.
  destruct (negb (truthy (login_email b)) || negb (truthy (login_password b)));
    [discriminate|].
  destruct (Student.findOne db (str (login_email b))) as [u|] eqn:Es; cbn [option_map].
  - apply Student_findOne_In in Es as [Hin Heq].
    destruct (negb (bcrypt_compare _ _)); [discriminate|].
    cbn. intros E. injection E as _ Hrole Hemail _ _. subst role email.
    split; [now left|]. split; [|discriminate].
    intros _. split; [now apply in_map|]. split; [exact Heq|].
    intros Hid. rewrite <- Hid, <- Heq. now apply in_map.
  - destruct (Organization.findOne db (str (login_email b))) as [o|] eqn:Eo;
      cbn [option_map]; [|discriminate].
    apply Organization_findOne_In in Eo as [Hin Heq].
    destruct (negb (bcrypt_compare _ _)); [discriminate|].
    cbn. intros E. injection E as _ Hrole Hemail _ _. subst role email.
    split; [now right|]. split; [discriminate|].
    intros _. split; [rewrite <- Heq; now apply in_map|]. split; [exact Heq|].
    intros Hheld. apply in_map_iff in Hheld as (u & Hu & Hin').
    unfold Student.findOne in Es. apply (find_none _ _ Es) in Hin'.
    cbn in Hin'. rewrite Hu, String.eqb_refl in Hin'. discriminate.
Qed.


Lemma Forall_replaceFirst {A : Type} (Q : A -> Prop) (P : A -> bool) (f : A -> A)
    (l : list A) :
  Forall Q l -> (forall x, In x l -> Q (f x)) -> Forall Q (replaceFirst P f l).
Proof.
  induction 1 as [|x r Hx Hr IH]; intros Hf; simpl; [constructor|].
  destruct (P x).
  - constructor; [apply Hf; now left | exact Hr].
  - constructor; [exact Hx | apply IH; intros y Hy; apply Hf; now right].
Qed.

(** The routes that write to the Student collection keep every stored
    email trimmed; the post routes do not write to it. *)
Lemma routes_keep_emails_trimmed (rev : PostSchemaRevision) (env : Env) (db : Db) :
  emailsTrimmed db ->
  (forall b, emailsTrimmed (fst (post_api_auth_register env db b)))
  /\ (forall b, emailsTrimmed (fst (post_api_cv env db b)))
  /\ (forall b, students (fst (post_api_posts rev env db b)) = students db)
  /\ (forall id b, students (fst (put_api_posts_id rev env db id b)) = students db)
  /\ (forall id, students (fst (delete_api_posts_id db id)) = students db).
Proof.
  intros Htrim. split; [|split; [|split; [|split]]].
  - intros b. unfold post_api_auth_register.
    repeat match goal with
           | |- context [if ?c then _ else _] => destruct c; try exact Htrim
           end.
    + unfold Student.insert.
      destruct (Student.validate _); [|exact Htrim].
      destruct (existsb _ _); [exact Htrim|].
      unfold emailsTrimmed. cbn. apply Forall_app. split; [exact Htrim|].
      constructor; [apply trim_idem | constructor].
    + unfold Organization.insert.
      destruct (Organization.validate _); [|exact Htrim].
      destruct (existsb _ _); exact Htrim.
  - intros b. unfold post_api_cv.
    destruct (negb _ || _ || _ || _); [exact Htrim|].
    destruct (Student.findOne db (str (cv_req_email b))) as [u|] eqn:Eu;
      [|exact Htrim].
    unfold Student.save. destruct (Student.validate _); [|exact Htrim].
    unfold emailsTrimmed. cbn. apply Forall_replaceFirst; [exact Htrim|].
    intros _ _. cbn. apply Student_findOne_In in Eu as [Hin _].
    unfold emailsTrimmed in Htrim. rewrite Forall_forall in Htrim. now apply Htrim.
  - intros b. unfold post_api_posts.
    repeat match goal with
           | |- context [if ?c then _ else _] => destruct c; try reflexivity
           end.
    unfold Post.create. destruct (castObjectId _); [|reflexivity].
    destruct (_ ++ _)%list; reflexivity.
  - intros id b. unfold put_api_posts_id.
    repeat match goal with
           | |- context [if ?c then _ else _] => destruct c; try reflexivity
           end.
    unfold Post.findByIdAndUpdate. destruct (castObjectId _); [|reflexivity].
    destruct (Post.validateContent _ _); [|reflexivity].
    destruct (List.find _ _); reflexivity.
  - intros id. unfold delete_api_posts_id, Post.findByIdAndDelete.
    destruct (castObjectId _); [|reflexivity].
    destruct (List.find _ _); reflexivity.
Qed.

End Accounts.

(** ** The CV of a student *)

Section Cv.

Context `{Platform}.

(** What a 200 from [POST /api/cv] tells: the student was found by
    email, and the stored document with its [_id] now holds the fields
    the route assigned. *)
Lemma post_api_cv_success_inv (env : Env) (db db' : Db) (b : CvBody)
    (message : string) (cv : CvJson) :
  post_api_cv env db b = (db', reply 200 (BCvSaved message cv)) ->
  exists old new,
    Student.findOne db (str (cv_req_email b)) = Some old
    /\ List.find (fun u => s_id u =? s_id old) (students db') = Some new
    /\ s_id new = s_id old
    /\ s_email new = s_email old
    /\ s_password new = s_password old
    /\ s_createdAt new = s_createdAt old
    /\ s_firstName new = Some (trim (str (cv_req_firstName b)))
    /\ s_lastName new = Some (trim (str (cv_req_lastName b)))
    /\ s_phone new = Some (trim (str (cv_req_phone b)))
    /\ s_address new = Some (trim (orElse (cv_req_address b) EmptyString))
    /\ s_education new = Some (trim (orElse (cv_req_education b) EmptyString))
    /\ s_skills new = Some (trim (orElse (cv_req_skills b) EmptyString))
    /\ s_experience new = Some (trim (orElse (cv_req_experience b) EmptyString))
    /\ s_projects new = Some (trim (orElse (cv_req_projects b) EmptyString))
    /\ s_certifications new
       = Some (trim (orElse (cv_req_certifications b) EmptyString)).
Proof.
  unfold post_api_cv.
  destruct (negb _ || _ || _ || _); [discriminate|].
  destruct (Student.findOne db (str (cv_req_email b))) as [old|] eqn:Eold;
    [|discriminate].
  unfold Student.save. destruct (Student.validate _); [|discriminate].
  intros E. injection E as Hdb _ _. subst db'. exists old. eexists.
  split; [reflexivity|].
  cbn [students Student.withStudents s_id Student.touch].
  rewrite find_replaceFirst by (intros; cbn; apply String.eqb_refl).
  apply Student_findOne_In in Eold as [Hin _].
  destruct (List.find (fun u => s_id u =? s_id old) (students db)) eqn:Efind.
  - split; [reflexivity|]. repeat split.
  - apply (find_none _ _ Efind) in Hin. cbn in Hin.
    rewrite String.eqb_refl in Hin. discriminate.
Qed.

(** C9. [POST /api/cv] with email, firstName, lastName or phone absent
    or empty answers 400 and writes nothing; after a successful call
    the stored record of the student has every optional field that the
    request omitted (address, education, skills, experience, projects,
    certifications) equal to the empty string, whatever it held before. *)
Theorem save_cv_clears_omitted_fields (env : Env) (db : Db) (b : CvBody) :
  (truthy (cv_req_email b) = false \/ truthy (cv_req_firstName b) = false
   \/ truthy (cv_req_lastName b) = false \/ truthy (cv_req_phone b) = false ->
   post_api_cv env db b
   = (db, fail 400 "Email, First Name, Last Name, and Phone are required."))
  /\ (forall db' message cv,
         post_api_cv env db b = (db', reply 200 (BCvSaved message cv)) ->
         exists old new,
           Student.findOne db (str (cv_req_email b)) = Some old
           /\ List.find (fun u => s_id u =? s_id old) (students db') = Some new
           /\ s_email new = s_email old
           /\ (cv_req_address b = None -> s_address new = Some EmptyString)
           /\ (cv_req_education b = None -> s_education new = Some EmptyString)
           /\ (cv_req_skills b = None -> s_skills new = Some EmptyString)
           /\ (cv_req_experience b = None -> s_experience new = Some EmptyString)
           /\ (cv_req_projects b = None -> s_projects new = Some EmptyString)
           /\ (cv_req_certifications b = None ->
               s_certifications new = Some EmptyString)).
Proof.
  split.
  - intros Hmissing. unfold post_api_cv.
    destruct Hmissing as [E | [E | [E | E]]]; rewrite E; cbn [negb orb];
      rewrite ?orb_true_r; reflexivity.
  - intros db' message cv Hpost.
    destruct (post_api_cv_success_inv _ _ _ _ _ _ Hpost)
      as (old & new & Hold & Hnew & _ & Hemail & _ & _ & _ & _ & _
          & Ha & He & Hs & Hx & Hp & Hc).
    exists old, new. split; [exact Hold|]. split; [exact Hnew|].
    split; [exact Hemail|].
    split; [intros E; now rewrite Ha, E|].
    split; [intros E; now rewrite He, E|].
    split; [intros E; now rewrite Hs, E|].
    split; [intros E; now rewrite Hx, E|].
    split; [intros E; now rewrite Hp, E|].
    intros E; now rewrite Hc, E.
Qed.

End Cv.

(** ** The routes at work *)

Module Cases.

Import Demo.

(** The example of the specification, under the optional-link schema. *)
Example create_intern :
  exists post,
    snd (post_api_posts (H:=platform) OptionalLink env1 emptyDb internBody)
    = reply 201 (BPost post)
    /\ p_status post = "draft"
    /\ p_location post = "Remote"
    /\ p_applicationLink post = EmptyString.
Proof. eexists. vm_compute. repeat split. Qed.

Lemma create_without_link_by_revision_witness :
  req_applicationLink internBody = None
  /\ passesOtherChecks (H:=platform) internBody
  /\ exists post,
       post_api_posts (H:=platform) OptionalLink env1 emptyDb internBody
       = (Post.withPosts emptyDb (posts emptyDb ++ [post])%list,
          reply 201 (BPost post))
       /\ p_applicationLink post = EmptyString.
Proof.
  assert (Hlink : req_applicationLink internBody = None) by reflexivity.
  assert (Hpass : passesOtherChecks (H:=platform) internBody)
    by (vm_compute; repeat split; reflexivity).
  split; [exact Hlink|]. split; [exact Hpass|].
  exact (create_without_link_by_revision (H:=platform) OptionalLink env1 emptyDb
           internBody Hlink Hpass).
Defined.

(** Under the schema that requires a URL the same request, which passes
    every other check, is rejected and nothing is stored. *)
Lemma create_without_link_refuted :
  req_applicationLink internBody = None
  /\ passesOtherChecks (H:=platform) internBody
  /\ post_api_posts (H:=platform) RequiredUrlLink env1 emptyDb internBody
     = (emptyDb, fail 400 "Path `applicationLink` is required.")
  /\ ~ (exists db' post,
           post_api_posts (H:=platform) RequiredUrlLink env1 emptyDb internBody
           = (db', reply 201 (BPost post))
           /\ p_applicationLink post = EmptyString).
Proof.
  split; [reflexivity|].
  split; [vm_compute; repeat split; reflexivity|].
  split; [vm_compute; reflexivity|].
  intros (db' & post & E & _). vm_compute in E. discriminate E.
Qed.


Lemma create_rejects_start_after_end_witness :
  exists msg,
    post_api_posts (H:=platform) OptionalLink env1 emptyDb backwardsBody
    = (emptyDb, fail 400 msg)
    /\ In msg createValidationMessages.
Proof.
  apply (create_rejects_start_after_end (H:=platform) OptionalLink env1 emptyDb
           backwardsBody 1706745600000 1704067200000).
  - vm_compute; reflexivity.
  - vm_compute; reflexivity.
  - lia.
Defined.

Lemma update_resets_omitted_fields_witness :
  exists db' post,
    put_api_posts_id (H:=platform) OptionalLink env2 onsiteDb postId retitleBody
    = (db', reply 200 (BPost post))
    /\ Post.findById (H:=platform) db' postId = Returned (Some post)
    /\ p_location post = "Remote"
    /\ p_durationStart post = None
    /\ p_durationEnd post = None
    /\ p_applicationLink post = EmptyString
    /\ (exists errors,
           put_api_posts_id (H:=platform) RequiredUrlLink env2 onsiteDb postId
             retitleBody
           = (onsiteDb, fail 400 (join "; " errors))
           /\ In "Path `applicationLink` is required." errors)
    /\ put_api_posts_id (H:=platform) RequiredUrlLink env2 onsiteDb "not-an-id"
         retitleBody
       = (onsiteDb, fail 500 "Failed to update post").
Proof.
  assert (Hrequired :
            (exists errors,
                put_api_posts_id (H:=platform) RequiredUrlLink env2 onsiteDb postId
                  retitleBody
                = (onsiteDb, fail 400 (join "; " errors))
                /\ In "Path `applicationLink` is required." errors)
            /\ put_api_posts_id (H:=platform) RequiredUrlLink env2 onsiteDb
                 "not-an-id" retitleBody
               = (onsiteDb, fail 500 "Failed to update post")).
  { split.
    - destruct (proj2 (update_resets_omitted_fields (H:=platform) RequiredUrlLink
                         env2 onsiteDb postId retitleBody) eq_refl eq_refl)
        as (r & Hput & _ & _ & Hvalidators).
      destruct Hvalidators as (errors & -> & Hin);
        [reflexivity | reflexivity | reflexivity | reflexivity | discriminate|].
      exists errors. split; [exact Hput | exact Hin].
    - destruct (proj2 (update_resets_omitted_fields (H:=platform) RequiredUrlLink
                         env2 onsiteDb "not-an-id" retitleBody) eq_refl eq_refl)
        as (r & Hput & _ & Hserver & _).
      assert (Hstatus : status r = 500%Z)
        by (apply Hserver; repeat split; reflexivity).
      rewrite Hput. vm_compute in Hput. injection Hput as <-. reflexivity. }
  destruct Hrequired as [Hvalidators Hserver].
  destruct (put_api_posts_id (H:=platform) OptionalLink env2 onsiteDb postId
              retitleBody) as [db' r] eqn:Hput.
  assert (Hr : exists post, r = reply 200 (BPost post)).
  { vm_compute in Hput. injection Hput as _ Hr. eexists. symmetry. exact Hr. }
  destruct Hr as [post ->].
  destruct (update_resets_omitted_fields (H:=platform) OptionalLink env2 onsiteDb
              postId retitleBody) as [Hreset _].
  destruct (Hreset db' post Hput) as (Hstored & Hloc & Hstart & Hend & _ & Hlink).
  exists db', post. split; [reflexivity|]. split; [exact Hstored|].
  split; [exact (Hloc eq_refl)|]. split; [exact (Hstart eq_refl)|].
  split; [exact (Hend eq_refl)|]. split; [exact (proj1 (Hlink eq_refl))|].
  split; [exact Hvalidators | exact Hserver].
Defined.

(** Under the schema that requires a URL an update that omits location
    and applicationLink is rejected; the stored post keeps "Onsite" and
    its link. *)
Lemma update_resets_omitted_fields_refuted :
  req_location retitleBody = None
  /\ req_applicationLink retitleBody = None
  /\ Post.findById (H:=platform) onsiteDb postId = Returned (Some onsitePost)
  /\ put_api_posts_id (H:=platform) RequiredUrlLink env2 onsiteDb postId retitleBody
     = (onsiteDb, fail 400 "Path `applicationLink` is required.")
  /\ exists stored,
       Post.findById (H:=platform)
         (fst (put_api_posts_id (H:=platform) RequiredUrlLink env2 onsiteDb postId
                 retitleBody))
         postId
       = Returned (Some stored)
       /\ p_location stored <> "Remote"
       /\ p_applicationLink stored <> EmptyString.
Proof.
  split; [reflexivity|]. split; [reflexivity|].
  split; [vm_compute; reflexivity|]. split; [vm_compute; reflexivity|].
  exists onsitePost. split; [vm_compute; reflexivity|].
  split; discriminate.
Qed.

Lemma update_keeps_status_and_owner_witness :
  exists db' post,
    put_api_posts_id (H:=platform) OptionalLink env2 onsiteDb postId retitleBody
    = (db', reply 200 (BPost post))
    /\ p_status post = "active"
    /\ p_orgId post = acmeId
    /\ p_orgName post = "Acme".
Proof.
  destruct (put_api_posts_id (H:=platform) OptionalLink env2 onsiteDb postId
              retitleBody) as [db' r] eqn:Hput.
  assert (Hr : exists post, r = reply 200 (BPost post)).
  { vm_compute in Hput. injection Hput as _ Hr. eexists. symmetry. exact Hr. }
  destruct Hr as [post ->].
  destruct (update_keeps_status_and_owner (H:=platform) OptionalLink env2 onsiteDb
              postId retitleBody) as [_ Hkeep].
  destruct (Hkeep db' post Hput) as (old & Hold & _ & Hs & Ho & Hn).
  vm_compute in Hold. injection Hold as <-.
  exists db', post. split; [reflexivity|]. repeat split; assumption.
Defined.

Lemma unparseable_date_is_absent_witness :
  Date_parse (Platform:=platform) "next spring" = None
  /\ post_api_posts (H:=platform) OptionalLink env1 emptyDb
       (withDurationStart (Some "next spring") internBody)
     = post_api_posts (H:=platform) OptionalLink env1 emptyDb
         (withDurationStart None internBody)
  /\ (exists db' post,
         post_api_posts (H:=platform) OptionalLink env1 emptyDb
           (withDurationStart (Some "next spring") internBody)
         = (db', reply 201 (BPost post))
         /\ posts db' = [post]
         /\ p_durationStart post = None)
  /\ (exists db' post,
         put_api_posts_id (H:=platform) OptionalLink env2 onsiteDb postId
           (withDurationStart (Some "next spring") retitleBody)
         = (db', reply 200 (BPost post))
         /\ p_durationStart onsitePost = Some 1704067200000%Z
         /\ Post.findById (H:=platform) db' postId = Returned (Some post)
         /\ p_durationStart post = None).
Proof.
  assert (Hnan : Date_parse (Platform:=platform) "next spring" = None)
    by (vm_compute; reflexivity).
  split; [exact Hnan|].
  split.
  { exact (proj1 (proj1 (unparseable_date_is_absent (H:=platform) OptionalLink env1
                           emptyDb postId internBody "next spring" Hnan))). }
  split.
  - destruct (post_api_posts (H:=platform) OptionalLink env1 emptyDb
                (withDurationStart (Some "next spring") internBody))
      as [db' r] eqn:Hcreate.
    assert (Hr : exists post, r = reply 201 (BPost post)).
    { vm_compute in Hcreate. injection Hcreate as _ <-. eexists. reflexivity. }
    destruct Hr as (post & ->).
    destruct (unparseable_date_is_absent (H:=platform) OptionalLink env1 emptyDb
                postId internBody "next spring" Hnan)
      as (_ & _ & _ & Hcreated & _).
    destruct (proj1 (Hcreated db' post) Hcreate) as [Hposts Hdate].
    exists db', post. split; [reflexivity|]. split; [exact Hposts | exact Hdate].
  - destruct (put_api_posts_id (H:=platform) OptionalLink env2 onsiteDb postId
                (withDurationStart (Some "next spring") retitleBody))
      as [db' r] eqn:Hput.
    assert (Hr : exists post, r = reply 200 (BPost post)).
    { vm_compute in Hput. injection Hput as _ <-. eexists. reflexivity. }
    destruct Hr as (post & ->).
    destruct (unparseable_date_is_absent (H:=platform) OptionalLink env2 onsiteDb
                postId retitleBody "next spring" Hnan)
      as (_ & _ & _ & _ & Hupdated).
    destruct (proj1 (Hupdated db' post) Hput) as [Hfound Hdate].
    exists db', post. split; [reflexivity|]. split; [reflexivity|].
    split; [exact Hfound | exact Hdate].
Defined.

Lemma list_posts_modes_witness :
  (exists l,
      get_api_posts (H:=platform) feedDb None = reply 200 (BPosts l)
      /\ Permutation l
           (map Post.selectWithoutV
              (filter (fun p => p_status p =? "active") (posts feedDb)))
      /\ Forall (fun p => p_v p = None) l
      /\ StronglySorted newerOrSame l)
  /\ (exists l,
         get_api_posts (H:=platform) feedDb (Some acmeId) = reply 200 (BPosts l)
         /\ Permutation l (filter (fun p => p_orgId p =? acmeId) (posts feedDb))
         /\ (forall p, In p l <-> In p (posts feedDb) /\ p_orgId p = acmeId)
         /\ StronglySorted newerOrSame l).
Proof.
  destruct (list_posts_modes (H:=platform) feedDb) as [Hfeed Horg].
  split.
  - apply (Hfeed None). reflexivity.
  - apply (Horg acmeId acmeId); vm_compute; reflexivity.
Defined.

(** The two listings of the example database, newest first. *)
Example list_feed :
  get_api_posts (H:=platform) feedDb None
  = reply 200
      (BPosts [Post.selectWithoutV activeOfAcme; Post.selectWithoutV activeOfOther])
  /\ get_api_posts (H:=platform) feedDb (Some acmeId)
     = reply 200 (BPosts [activeOfAcme; draftOfAcme]).
Proof. split; vm_compute; reflexivity. Qed.

Lemma login_role_of_holding_collection_witness :
  post_api_auth_login (H:=platform) accountsDb adaLogin
  = reply 200
      (BLogin "Login successful" "student" "ada@uni.example" (s_id ada) None)
  /\ In "ada@uni.example" (map s_email (students accountsDb))
  /\ post_api_auth_login (H:=platform) accountsDb paddedLogin
     = reply 200
         (BLogin "Login successful" "student" "ada@uni.example" (s_id ada) None)
  /\ "ada@uni.example" = trim (str (login_email paddedLogin))
  /\ post_api_auth_login (H:=platform) accountsDb acmeLogin
     = reply 200
         (BLogin "Login successful" "organization" "hr@acme.example" acmeId
            (Some acmeId))
  /\ ~ In (trim "hr@acme.example") (map s_email (students accountsDb)).
Proof.
  assert (Hlogin :
            post_api_auth_login (H:=platform) accountsDb adaLogin
            = reply 200
                (BLogin "Login successful" "student" "ada@uni.example" (s_id ada)
                   None))
    by (vm_compute; reflexivity).
  assert (Hpadded :
            post_api_auth_login (H:=platform) accountsDb paddedLogin
            = reply 200
                (BLogin "Login successful" "student" "ada@uni.example" (s_id ada)
                   None))
    by (vm_compute; reflexivity).
  assert (Hacme :
            post_api_auth_login (H:=platform) accountsDb acmeLogin
            = reply 200
                (BLogin "Login successful" "organization" "hr@acme.example" acmeId
                   (Some acmeId)))
    by (vm_compute; reflexivity).
  destruct (login_role_of_holding_collection (H:=platform) accountsDb adaLogin _ _ _
              _ _ Hlogin) as (_ & Hstudent & _).
  destruct (login_role_of_holding_collection (H:=platform) accountsDb paddedLogin _ _
              _ _ _ Hpadded) as (_ & Hstudent' & _).
  destruct (login_role_of_holding_collection (H:=platform) accountsDb acmeLogin _ _ _
              _ _ Hacme) as (_ & _ & Horg).
  split; [exact Hlogin|]. split; [exact (proj1 (Hstudent eq_refl))|].
  split; [exact Hpadded|]. split; [exact (proj1 (proj2 (Hstudent' eq_refl)))|].
  split; [exact Hacme|]. exact (proj2 (proj2 (Horg eq_refl))).
Defined.

(** A login with the email padded by spaces is answered with role
    student, although the Student collection does not hold the string
    that was supplied. *)
Lemma login_padded_email_refuted :
  post_api_auth_login (H:=platform) accountsDb paddedLogin
  = reply 200
      (BLogin "Login successful" "student" "ada@uni.example" (s_id ada) None)
  /\ ~ In (str (login_email paddedLogin)) (map s_email (students accountsDb)).
Proof.
  split; [vm_compute; reflexivity|].
  intros [E | []]. discriminate E.
Qed.

(** The password of the organization does not open the account of the
    student, and no role is reported. *)
Example login_with_other_password :
  post_api_auth_login (H:=platform) accountsDb
    {| login_email := Some "ada@uni.example"; login_password := Some "anvil" |}
  = fail 400 "Invalid credentials.".
Proof. vm_compute; reflexivity. Qed.

Lemma save_cv_clears_omitted_fields_witness :
  exists db' message cv new,
    post_api_cv env2 accountsDb bareCv = (db', reply 200 (BCvSaved message cv))
    /\ List.find (fun u => s_id u =? s_id ada) (students db') = Some new
    /\ s_address new = Some EmptyString
    /\ s_education new = Some EmptyString
    /\ s_skills new = Some EmptyString
    /\ s_experience new = Some EmptyString
    /\ s_projects new = Some EmptyString
    /\ s_certifications new = Some EmptyString.
Proof.
  destruct (post_api_cv env2 accountsDb bareCv) as [db' r] eqn:Hpost.
  assert (Hr : exists message cv, r = reply 200 (BCvSaved message cv)).
  { vm_compute in Hpost. injection Hpost as _ Hr. do 2 eexists. symmetry. exact Hr. }
  destruct Hr as (message & cv & ->).
  destruct (save_cv_clears_omitted_fields env2 accountsDb bareCv) as [_ Hclear].
  destruct (Hclear db' message cv Hpost)
    as (old & new & Hold & Hnew & _ & Ha & He & Hs & Hx & Hp & Hc).
  vm_compute in Hold. injection Hold as <-.
  exists db', message, cv, new. split; [reflexivity|]. split; [exact Hnew|].
  split; [exact (Ha eq_refl)|]. split; [exact (He eq_refl)|].
  split; [exact (Hs eq_refl)|]. split; [exact (Hx eq_refl)|].
  split; [exact (Hp eq_refl)|]. exact (Hc eq_refl).
Defined.

Lemma delete_malformed_id_is_server_error_witness :
  ObjectId_isValid (H:=platform) "not-an-id" = false
  /\ delete_api_posts_id (H:=platform) onsiteDb "not-an-id"
     = (onsiteDb, fail 500 "Failed to delete post")
  /\ get_api_posts_id (H:=platform) onsiteDb "not-an-id" = fail 400 "Invalid post ID".
Proof.
  assert (Hbad : ObjectId_isValid (H:=platform) "not-an-id" = false)
    by (vm_compute; reflexivity).
  split; [exact Hbad|].
  exact (delete_malformed_id_is_server_error (H:=platform) onsiteDb "not-an-id" Hbad).
Defined.

End Cases.

(** * Further properties of the routes *)

(** ** Validators and lookups *)

Lemma firstError_nil (checks : list (bool * string)) :
  firstError checks = [] -> Forall (fun c => fst c = true) checks.
Proof.
  unfold firstError. destruct (List.find _ checks) eqn:E; [discriminate|].
  intros _. apply Forall_forall. intros c Hc.
  apply (find_none _ _ E) in Hc. now destruct (fst c).
Qed.

Lemma find_app_last {A : Type} (P : A -> bool) (l : list A) (x : A) :
  List.find P l = None -> P x = true -> List.find P (l ++ [x])%list = Some x.
Proof.
  induction l as [|y r IH]; simpl; intros Hnone Hx.
  - now rewrite Hx.
  - destruct (P y); [discriminate | now apply IH].
Qed.

Lemma find_app_keep {A : Type} (P : A -> bool) (l : list A) (x y : A) :
  List.find P l = Some y -> List.find P (l ++ [x])%list = Some y.
Proof.
  induction l as [|z r IH]; simpl; [discriminate|].
  destruct (P z); [trivial | exact IH].
Qed.


Lemma find_removeFirst_other {A : Type} (P Q : A -> bool) (l : list A) :
  (forall x, Q x = true -> P x = false) ->
  List.find P (removeFirst Q l) = List.find P l.
Proof.
  intros Hother. induction l as [|x r IH]; simpl; [reflexivity|].
  destruct (Q x) eqn:Eq; simpl.
  - now rewrite (Hother x Eq).
  - now rewrite IH.
Qed.

Lemma removeFirst_perm {A : Type} (P : A -> bool) (l : list A) (x : A) :
  List.find P l = Some x -> Permutation l (x :: removeFirst P l).
Proof.
  induction l as [|y r IH]; simpl; [discriminate|].
  destruct (P y).
  - intros E. injection E as ->. reflexivity.
  - intros E. rewrite perm_swap. apply perm_skip. now apply IH.
Qed.

Lemma replaceFirst_idem {A : Type} (P : A -> bool) (f : A -> A) (l : list A) :
  (forall x, P x = true -> P (f x) = true) ->
  (forall x, f (f x) = f x) ->
  replaceFirst P f (replaceFirst P f l) = replaceFirst P f l.
Proof.
  intros Pf ff. induction l as [|x r IH]; simpl; [reflexivity|].
  destruct (P x) eqn:E; simpl.
  - now rewrite (Pf x E), ff.
  - now rewrite E, IH.
Qed.

Lemma replaceFirst_length {A : Type} (P : A -> bool) (f : A -> A) (l : list A) :
  List.length (replaceFirst P f l) = List.length l.
Proof.
  induction l as [|x r IH]; simpl; [reflexivity|].
  destruct (P x); simpl; [reflexivity | now rewrite IH].
Qed.

(** ** Creating a post, in full *)

Section CreatedPosts.

Context `{Platform}.

(** Every outcome of [POST /api/posts]: either the request passed the
    checks of the route and the validators of the schema, and the answer
    is 201 with the document that was appended; or the answer is 400 and
    the database is as before. *)
Lemma post_api_posts_inv (rev : PostSchemaRevision) (env : Env) (db db' : Db)
    (b : PostBody) (r : Response) :
  post_api_posts rev env db b = (db', r) ->
  (exists oid post,
      castObjectId (str (req_orgId b)) = Some oid
      /\ truthy (req_orgId b) = true
      /\ truthy (req_orgName b) = true
      /\ includes ["draft"; "active"]
           (match req_status b with Some s => s | None => "draft" end) = true
      /\ startAfterEnd (parseDate (req_durationStart b))
           (parseDate (req_durationEnd b)) = false
      /\ Post.validateContent rev (Post.cast rev (contentOf b)) = []
      /\ post
         = {| p_id := newId env;
              p_orgId := oid;
              p_orgName := str (req_orgName b);
              p_title := trim (str (req_title b));
              p_type := str (req_type b);
              p_description := str (req_description b);
              p_location := orElse (req_location b) "Remote";
              p_durationStart := parseDate (req_durationStart b);
              p_durationEnd := parseDate (req_durationEnd b);
              p_deadline := parseDate (req_deadline b);
              p_applicationLink :=
                Post.setApplicationLink rev
                  (orElse (req_applicationLink b) EmptyString);
              p_status := match req_status b with Some s => s | None => "draft" end;
              p_createdAt := now env;
              p_updatedAt := now env;
              p_v := Some 0%Z |}
      /\ r = reply 201 (BPost post)
      /\ db' = Post.withPosts db (posts db ++ [post])%list)
  \/ (db' = db /\ exists msg, r = fail 400 msg).
Proof.
  unfold post_api_posts.
  destruct (truthy (req_orgId b)) eqn:Ho; cbn [negb orb];
    [|intros E; injection E as <- <-; right; eauto].
  destruct (truthy (req_orgName b)) eqn:Hn; cbn [negb orb];
    [|intros E; injection E as <- <-; right; eauto].
  destruct (negb (truthy (req_title b)) || negb (truthy (req_type b))
            || negb (truthy (req_description b)));
    [intros E; injection E as <- <-; right; eauto|].
  destruct (includes ["draft"; "active"] _) eqn:Hst; cbn [negb];
    [|intros E; injection E as <- <-; right; eauto].
  destruct (negb (ObjectId_isValid (str (req_orgId b))));
    [intros E; injection E as <- <-; right; eauto|].
  destruct (startAfterEnd _ _) eqn:Hdates;
    [intros E; injection E as <- <-; right; eauto|].
  unfold Post.create, Post.castOrgIdError.
  destruct (castObjectId (str (req_orgId b))) as [oid|] eqn:Hcast.
  - cbn [app].
    destruct (Post.validateOrgName (str (req_orgName b))
                ++ Post.validateContent rev (Post.cast rev (contentOf b))
                ++ Post.validateStatus
                     match req_status b with Some s => s | None => "draft" end)%list
      eqn:Herrs.
    + apply app_eq_nil in Herrs as [_ Herrs].
      apply app_eq_nil in Herrs as [Hvalid _].
      intros E; injection E as <- <-. left. do 2 eexists.
      repeat (split; [first [eassumption | reflexivity]|]). reflexivity.
    + intros E; injection E as <- <-; right; eauto.
  - intros E; injection E as <- <-; right; eauto.
Qed.

(** X1. Create then get: when the generated identifier is new to the
    collection and reads back as itself, [GET /api/posts/:id] on the
    identifier of a post just created answers 200 with that very post. *)
Theorem create_then_get (rev : PostSchemaRevision) (env : Env) (db db' : Db)
    (b : PostBody) (post : PostDoc) :
  castObjectId (newId env) = Some (newId env) ->
  List.find (Post.hasId (newId env)) (posts db) = None ->
  post_api_posts rev env db b = (db', reply 201 (BPost post)) ->
  p_id post = newId env
  /\ get_api_posts_id db' (p_id post) = reply 200 (BPost post).
Proof.
  intros Hcast Hfresh Hcreate.
  destruct (post_api_posts_inv _ _ _ _ _ _ Hcreate)
    as [(oid & post' & _ & _ & _ & _ & _ & _ & Hpost & Hr & Hdb) | (_ & msg & Hr)];
    [|discriminate Hr].
  injection Hr as <-.
  assert (Hid : p_id post = newId env) by (now subst post).
  split; [exact Hid|].
  rewrite Hid. unfold get_api_posts_id, ObjectId_isValid, Post.findById.
  rewrite Hcast. cbn [negb]. subst db'. cbn [posts Post.withPosts].
  rewrite (find_app_last _ _ post Hfresh).
  - reflexivity.
  - unfold Post.hasId. rewrite Hid. apply String.eqb_refl.
Qed.

(** X2. [POST /api/posts] is all or nothing: either it answers 201 and
    the database differs from the one before by exactly the returned
    document, appended to the posts with the generated identifier, the
    clock in both timestamps and version key 0; or it does not answer 201
    and the database is as before. *)
Theorem create_all_or_nothing (rev : PostSchemaRevision) (env : Env) (db : Db)
    (b : PostBody) :
  (exists post,
      post_api_posts rev env db b
      = (Post.withPosts db (posts db ++ [post])%list, reply 201 (BPost post))
      /\ p_id post = newId env
      /\ p_createdAt post = now env
      /\ p_updatedAt post = now env
      /\ p_v post = Some 0%Z
      /\ castObjectId (str (req_orgId b)) = Some (p_orgId post))
  \/ (fst (post_api_posts rev env db b) = db
      /\ status (snd (post_api_posts rev env db b)) <> 201%Z).
Proof.
  destruct (post_api_posts rev env db b) as [db' r] eqn:Hcreate.
  destruct (post_api_posts_inv _ _ _ _ _ _ Hcreate)
    as [(oid & post & Hcast & _ & _ & _ & _ & _ & Hpost & -> & ->)
       | (-> & msg & ->)].
  - left. exists post. subst post. repeat split. exact Hcast.
  - right. split; [reflexivity | discriminate].
Qed.



End CreatedPosts.

(** ** What stored posts satisfy *)

Section StoredPosts.

Context `{Platform}.

Lemma includes_In (xs : list string) (x : string) : includes xs x = true -> In x xs.
Proof.
  unfold includes. intros E. apply existsb_exists in E as (y & Hy & Exy).
  apply String.eqb_eq in Exy. now subst y.
Qed.

Lemma startAfterEnd_false (start end_ : option Z) (s e : Z) :
  startAfterEnd start end_ = false -> start = Some s -> end_ = Some e -> (s <= e)%Z.
Proof.
  intros Hno -> ->. simpl in Hno. apply Z.ltb_ge in Hno. exact Hno.
Qed.

(** What content that passes the validators looks like. *)
Lemma validateContent_ok (rev : PostSchemaRevision) (c : Post.Content) :
  Post.validateContent rev c = [] ->
  Post.title c <> EmptyString
  /\ (String.length (Post.title c) <= 100)%nat
  /\ In (Post.type c) ["Internship"; "Volunteering"; "Mentorship"; "Event"]
  /\ (20 <= String.length (Post.description c) <= 2000)%nat
  /\ (rev = RequiredUrlLink -> startsWithHttp (Post.applicationLink c) = true).
Proof.
  unfold Post.validateContent. intros Hvalid.
  apply app_eq_nil in Hvalid as [Ht Hvalid].
  apply app_eq_nil in Hvalid as [Hty Hvalid].
  apply app_eq_nil in Hvalid as [Hd Hl].
  apply firstError_nil in Ht, Hty, Hd.
  inversion Ht as [|? ? Ht1 Ht']; subst. inversion Ht' as [|? ? Ht2 _]; subst.
  inversion Hty as [|? ? _ Hty']; subst. inversion Hty' as [|? ? Hty2 _]; subst.
  inversion Hd as [|? ? _ Hd']; subst. inversion Hd' as [|? ? Hd2 Hd'']; subst.
  inversion Hd'' as [|? ? Hd3 _]; subst.
  cbn [fst required maxlength minlength enum] in *.
  split.
  { intros E. rewrite E in Ht1. discriminate. }
  split; [now apply Nat.leb_le|].
  split; [now apply includes_In|].
  split; [split; now apply Nat.leb_le|].
  intros ->. cbn in Hl. apply firstError_nil in Hl.
  inversion Hl as [|? ? _ Hl']; subst. inversion Hl' as [|? ? Hl2 _]; subst.
  exact Hl2.
Qed.

Lemma Forall_removeFirst {A : Type} (Q : A -> Prop) (P : A -> bool) (l : list A) :
  Forall Q l -> Forall Q (removeFirst P l).
Proof.
  induction 1 as [|x r Hx Hr IH]; simpl; [constructor|].
  destruct (P x); [exact Hr | now constructor].
Qed.

(** Every outcome of [PUT /api/posts/:id] other than 200 leaves the
    database as it was. *)
Lemma put_failure_keeps_db (rev : PostSchemaRevision) (env : Env) (db : Db)
    (id : string) (b : PostBody) :
  (exists post, snd (put_api_posts_id rev env db id b) = reply 200 (BPost post))
  \/ fst (put_api_posts_id rev env db id b) = db.
Proof.
  unfold put_api_posts_id.
  destruct (negb (truthy (req_title b)) || negb (truthy (req_type b))
            || negb (truthy (req_description b))); [now right|].
  destruct (startAfterEnd _ _); [now right|].
  unfold Post.findByIdAndUpdate.
  destruct (castObjectId id) as [oid|]; [|now right].
  destruct (Post.validateContent rev (Post.cast rev (contentOf b))); [|now right].
  destruct (List.find (Post.hasId oid) (posts db));
    [left; eexists; reflexivity | now right].
Qed.

Lemma put_success_dates (rev : PostSchemaRevision) (env : Env) (db db' : Db)
    (id : string) (b : PostBody) (post : PostDoc) :
  put_api_posts_id rev env db id b = (db', reply 200 (BPost post)) ->
  startAfterEnd (parseDate (req_durationStart b)) (parseDate (req_durationEnd b))
  = false.
Proof.
  unfold put_api_posts_id.
  destruct (negb (truthy (req_title b)) || negb (truthy (req_type b))
            || negb (truthy (req_description b))); [discriminate|].
  destruct (startAfterEnd _ _); [discriminate | reflexivity].
Qed.

(** X4. The post routes keep the stored posts valid: if every stored
    post has a non-empty orgName, a non-empty title of at most 100
    characters, a type of the enumeration, a description of 20 to 2000
    characters, status draft or active, its start not after its end when
    both are set, and (under the revision that requires one) a link that
    starts with http:// or https://, then so does every stored post after
    a create, an update or a delete, whatever the request. *)
Theorem post_routes_keep_posts_valid (rev : PostSchemaRevision) (env : Env) (db : Db) :
  Forall (storedPostOk rev) (posts db) ->
  (forall b, Forall (storedPostOk rev) (posts (fst (post_api_posts rev env db b))))
  /\ (forall id b,
         Forall (storedPostOk rev) (posts (fst (put_api_posts_id rev env db id b))))
  /\ (forall id, Forall (storedPostOk rev) (posts (fst (delete_api_posts_id db id)))).
Proof.
  intros Hok. split; [|split].
  - intros b. destruct (post_api_posts rev env db b) as [db' r] eqn:Hcreate.
    destruct (post_api_posts_inv _ _ _ _ _ _ Hcreate)
      as [(oid & post & _ & _ & Hn & Hst & Hdates & Hvalid & Hpost & _ & ->)
         | (-> & _)]; [|exact Hok].
    cbn [fst posts Post.withPosts]. apply Forall_app. split; [exact Hok|].
    constructor; [|constructor].
    destruct (validateContent_ok _ _ Hvalid) as (Ht & Hlen & Hty & Hd & Hl).
    subst post. unfold storedPostOk.
    cbn [p_orgName p_title p_type p_description p_status p_durationStart
           p_durationEnd p_applicationLink].
    split.
    { intros E. destruct (req_orgName b) as [n|]; [|discriminate].
      cbn in E, Hn. subst n. discriminate. }
    split; [exact Ht|]. split; [exact Hlen|]. split; [exact Hty|].
    split; [exact Hd|]. split; [exact (includes_In _ _ Hst)|].
    split; [intros s e; apply startAfterEnd_false; exact Hdates | exact Hl].
  - intros id b.
    destruct (put_failure_keeps_db rev env db id b) as [[post Hr] | ->]; [|exact Hok].
    destruct (put_api_posts_id rev env db id b) as [db' r] eqn:Hput.
    cbn [snd] in Hr. subst r.
    pose proof (put_success_dates _ _ _ _ _ _ _ Hput) as Hdates.
    destruct (put_success_inv _ _ _ _ _ _ _ Hput)
      as (oid & old & _ & Hfind & Hvalid & _ & ->).
    cbn [fst posts Post.withPosts]. apply Forall_replaceFirst; [exact Hok|].
    intros p Hp. rewrite Forall_forall in Hok.
    destruct (Hok p Hp) as (Hn & _ & _ & _ & _ & Hs & _ & _).
    destruct (validateContent_ok _ _ Hvalid) as (Ht & Hlen & Hty & Hd & Hl).
    unfold storedPostOk.
    cbn [Post.apply p_orgName p_title p_type p_description p_status p_durationStart
           p_durationEnd p_applicationLink].
    split; [exact Hn|]. split; [exact Ht|]. split; [exact Hlen|].
    split; [exact Hty|]. split; [exact Hd|]. split; [exact Hs|].
    split; [intros s e; apply startAfterEnd_false; exact Hdates | exact Hl].
  - intros id. unfold delete_api_posts_id, Post.findByIdAndDelete.
    destruct (castObjectId id) as [oid|]; [|exact Hok].
    destruct (List.find (Post.hasId oid) (posts db)); [|exact Hok].
    cbn [fst posts Post.withPosts]. now apply Forall_removeFirst.
Qed.

End StoredPosts.

(** ** Updating and deleting one post among others *)

Section OnePostAmongOthers.

Context `{Platform}.

Lemma hasId_other (oid oid' : ObjectId) (p : PostDoc) :
  oid' <> oid -> Post.hasId oid p = true -> Post.hasId oid' p = false.
Proof.
  unfold Post.hasId. intros Hne E. apply String.eqb_eq in E.
  apply String.eqb_neq. congruence.
Qed.


(** X6. [PUT /api/posts/:id] is idempotent: repeating a successful
    update, with the same request at the same clock, gives the same
    response and leaves the database as the first update left it. *)
Theorem update_is_idempotent (rev : PostSchemaRevision) (env : Env) (db db' : Db)
    (id : string) (b : PostBody) (post : PostDoc) :
  put_api_posts_id rev env db id b = (db', reply 200 (BPost post)) ->
  put_api_posts_id rev env db' id b = (db', reply 200 (BPost post)).
Proof.
  intros Hput.
  pose proof (put_success_dates _ _ _ _ _ _ _ Hput) as Hdates.
  destruct (put_success_inv _ _ _ _ _ _ _ Hput)
    as (oid & old & Hcast & Hfind & Hvalid & -> & ->).
  revert Hput. unfold put_api_posts_id.
  destruct (negb (truthy (req_title b)) || negb (truthy (req_type b))
            || negb (truthy (req_description b))); [discriminate|].
  rewrite Hdates. intros _.
  unfold Post.findByIdAndUpdate. rewrite Hcast, Hvalid.
  cbn [posts Post.withPosts].
  rewrite find_replaceFirst by (intros x Hx; exact Hx).
  rewrite Hfind. cbn [option_map].
  rewrite replaceFirst_idem; [reflexivity | intros x Hx; exact Hx | reflexivity].
Qed.

(** X7. An update addressed to an identifier that no stored post has
    changes nothing and is never answered 200: the answer is 404 ("Post
    not found") when the request passes the checks of the route and the
    validators of the schema, and 400 when it fails any of them. *)
Theorem update_of_unknown_id (rev : PostSchemaRevision) (env : Env) (db : Db)
    (id : string) (b : PostBody) :
  Post.findById db id = Returned None ->
  fst (put_api_posts_id rev env db id b) = db
  /\ (truthy (req_title b) = true ->
      truthy (req_type b) = true ->
      truthy (req_description b) = true ->
      startAfterEnd (parseDate (req_durationStart b)) (parseDate (req_durationEnd b))
      = false ->
      Post.validateContent rev (Post.cast rev (contentOf b)) = [] ->
      snd (put_api_posts_id rev env db id b) = fail 404 "Post not found")
  /\ (truthy (req_title b) = false
      \/ truthy (req_type b) = false
      \/ truthy (req_description b) = false
      \/ startAfterEnd (parseDate (req_durationStart b))
           (parseDate (req_durationEnd b)) = true
      \/ Post.validateContent rev (Post.cast rev (contentOf b)) <> [] ->
      status (snd (put_api_posts_id rev env db id b)) = 400%Z).
Proof.
  unfold Post.findById, put_api_posts_id.
  destruct (castObjectId id) as [oid|] eqn:Hcast; [|discriminate].
  intros E. injection E as Hfind.
  destruct (truthy (req_title b)); cbn [negb orb];
    [|split; [reflexivity | split; [discriminate | reflexivity]]].
  destruct (truthy (req_type b)); cbn [negb orb];
    [|split; [reflexivity | split; [discriminate | reflexivity]]].
  destruct (truthy (req_description b)); cbn [negb orb];
    [|split; [reflexivity | split; [discriminate | reflexivity]]].
  destruct (startAfterEnd _ _);
    [split; [reflexivity | split; [discriminate | reflexivity]]|].
  unfold Post.findByIdAndUpdate. rewrite Hcast.
  destruct (Post.validateContent rev (Post.cast rev (contentOf b))) as [|m errs].
  - rewrite Hfind. split; [reflexivity|]. split; [reflexivity|].
    intros [E | [E | [E | [E | E]]]]; try discriminate E. now contradiction E.
  - split; [reflexivity|]. split; [discriminate | reflexivity].
Qed.

(** X8. Every outcome of [DELETE /api/posts/:id]: when a stored post
    has the identifier the answer is 200, exactly that post is removed
    (the posts before are the deleted post and the posts after) and the
    accounts are untouched; when none has it the answer is 404 and the
    database is as before. *)
Theorem delete_outcomes (db : Db) (id : string) (oid : ObjectId) :
  castObjectId id = Some oid ->
  match List.find (Post.hasId oid) (posts db) with
  | Some p =>
      exists db',
        delete_api_posts_id db id
        = (db', reply 200 (BMessage "Post deleted successfully"))
        /\ Permutation (posts db) (p :: posts db')
        /\ students db' = students db
        /\ organizations db' = organizations db
  | None => delete_api_posts_id db id = (db, fail 404 "Post not found")
  end.
Proof.
  intros Hcast. unfold delete_api_posts_id, Post.findByIdAndDelete. rewrite Hcast.
  destruct (List.find (Post.hasId oid) (posts db)) as [p|] eqn:Hfind; [|reflexivity].
  eexists. split; [reflexivity|]. cbn [posts students organizations Post.withPosts].
  split; [now apply removeFirst_perm | split; reflexivity].
Qed.

Lemma find_removeFirst_unique (oid : ObjectId) (l : list PostDoc) :
  NoDup (map p_id l) -> List.find (Post.hasId oid) (removeFirst (Post.hasId oid) l) = None.
Proof.
  induction l as [|p r IH]; simpl; [reflexivity|].
  intros Hnodup. inversion Hnodup as [|? ? Hnotin Hr]; subst.
  destruct (Post.hasId oid p) eqn:E.
  - unfold Post.hasId in E. apply String.eqb_eq in E.
    destruct (List.find (Post.hasId oid) r) as [q|] eqn:Hq; [|reflexivity].
    exfalso. apply find_some in Hq as [Hin Eq]. apply String.eqb_eq in Eq.
    apply Hnotin. rewrite E, <- Eq. now apply in_map.
  - simpl. rewrite E. now apply IH.
Qed.

(** X9. Delete then get: with identifiers that are unique among the
    stored posts, after a delete answered 200 a get of the same
    identifier answers 404, and a get of any other identifier answers
    what it answered before. *)
Theorem delete_then_get (db db' : Db) (id : string) (r : Response) :
  NoDup (map p_id (posts db)) ->
  delete_api_posts_id db id = (db', r) ->
  status r = 200%Z ->
  get_api_posts_id db' id = fail 404 "Post not found"
  /\ (forall id' oid oid',
         castObjectId id = Some oid ->
         castObjectId id' = Some oid' ->
         oid' <> oid ->
         get_api_posts_id db' id' = get_api_posts_id db id').
Proof.
  intros Hnodup. unfold delete_api_posts_id, Post.findByIdAndDelete.
  destruct (castObjectId id) as [oid|] eqn:Hcast;
    [|intros E; injection E as <- <-; discriminate].
  destruct (List.find (Post.hasId oid) (posts db)) as [p|] eqn:Hfind;
    [|intros E; injection E as <- <-; discriminate].
  intros E _. injection E as <- _. split.
  - unfold get_api_posts_id, ObjectId_isValid, Post.findById. rewrite Hcast.
    cbn [negb posts Post.withPosts]. now rewrite find_removeFirst_unique.
  - intros id' oid0 oid' Hcast0 Hcast' Hne. injection Hcast0 as <-.
    unfold get_api_posts_id, ObjectId_isValid, Post.findById. rewrite Hcast'.
    cbn [negb posts Post.withPosts].
    rewrite find_removeFirst_other; [reflexivity|].
    intros q Hq. exact (hasId_other oid oid' _ Hne Hq).
Qed.

End OnePostAmongOthers.

(** ** Registration and what follows from it *)

Section Registration.

Context `{Platform}.

Lemma Student_exists_false (db : Db) (e : string) :
  Student.exists_ db (Some e) = false -> Student.findOne db e = None.
Proof.
  unfold Student.exists_. now destruct (Student.findOne db e).
Qed.

Lemma Organization_exists_false (db : Db) (e : string) :
  Organization.exists_ db (Some e) = false -> Organization.findOne db e = None.
Proof.
  unfold Organization.exists_. now destruct (Organization.findOne db e).
Qed.

Lemma truthy_Some (x : field) : truthy x = true -> x = Some (str x).
Proof. destruct x; [reflexivity | discriminate]. Qed.

(** The two kinds of outcome of [POST /api/auth/register], read off the
    branches of the route. *)
Lemma post_api_auth_register_inv (env : Env) (db : Db) (b : RegisterBody) :
  (status (snd (post_api_auth_register env db b)) = 201%Z
   /\ Student.findOne db (str (reg_email b)) = None
   /\ Organization.findOne db (str (reg_email b)) = None
   /\ truthy (reg_email b) = true
   /\ truthy (reg_password b) = true
   /\ ((reg_role b = Some "student"
        /\ exists u,
            fst (post_api_auth_register env db b)
            = Student.withStudents db (students db ++ [u])%list
            /\ s_id u = newId env
            /\ s_email u = trim (str (reg_email b))
            /\ s_password u = bcrypt_hash (str (reg_password b)) (salt env))
       \/ (reg_role b = Some "organization"
           /\ exists o,
               fst (post_api_auth_register env db b)
               = Organization.withOrganizations db (organizations db ++ [o])%list
               /\ o_id o = newId env
               /\ o_email o = str (reg_email b)
               /\ o_password o = bcrypt_hash (str (reg_password b)) (salt env))))
  \/ (status (snd (post_api_auth_register env db b)) <> 201%Z
      /\ fst (post_api_auth_register env db b) = db).
Proof.
  unfold post_api_auth_register.
  destruct (invalidRole (reg_role b)) eqn:Hrole; [right; split; [discriminate | reflexivity]|].
  destruct (Student.exists_ db (reg_email b)) eqn:Hs; cbn [orb];
    [right; split; [discriminate | reflexivity]|].
  destruct (Organization.exists_ db (reg_email b)) eqn:Ho;
    [right; split; [discriminate | reflexivity]|].
  destruct (reg_role b) as [role|] eqn:Erole; [|discriminate]. cbn [str].
  destruct (String.eqb_spec role "student") as [->|Hnot].
  - destruct (truthy (reg_firstName b)); cbn [negb orb];
      [|right; split; [discriminate | reflexivity]].
    destruct (truthy (reg_lastName b)); cbn [negb orb];
      [|right; split; [discriminate | reflexivity]].
    destruct (truthy (reg_email b)) eqn:He; cbn [negb orb];
      [|right; split; [discriminate | reflexivity]].
    destruct (truthy (reg_phone b)); cbn [negb orb];
      [|right; split; [discriminate | reflexivity]].
    destruct (truthy (reg_password b)) eqn:Hp; cbn [negb orb];
      [|right; split; [discriminate | reflexivity]].
    rewrite (truthy_Some _ He) in Hs, Ho.
    unfold Student.insert.
    destruct (Student.validate _); [|right; split; [discriminate | reflexivity]].
    destruct (existsb _ _); [right; split; [discriminate | reflexivity]|].
    left. split; [reflexivity|].
    split; [now apply Student_exists_false|].
    split; [now apply Organization_exists_false|].
    split; [reflexivity|]. split; [reflexivity|].
    left. split; [reflexivity|]. eexists. split; [reflexivity|]. repeat split.
  - assert (Eorg : role = "organization").
    { cbn in Hrole. destruct (String.eqb_spec role "student"); [contradiction|].
      destruct (String.eqb_spec role "organization"); [assumption | discriminate]. }
    subst role.
    destruct (truthy (reg_orgName b)); cbn [negb orb];
      [|right; split; [discriminate | reflexivity]].
    destruct (truthy (reg_email b)) eqn:He; cbn [negb orb];
      [|right; split; [discriminate | reflexivity]].
    destruct (truthy (reg_password b)) eqn:Hp; cbn [negb orb];
      [|right; split; [discriminate | reflexivity]].
    destruct (reg_orgTerms b); cbn [negb];
      [|right; split; [discriminate | reflexivity]].
    rewrite (truthy_Some _ He) in Hs, Ho.
    unfold Organization.insert.
    destruct (Organization.validate _); [|right; split; [discriminate | reflexivity]].
    destruct (existsb _ _); [right; split; [discriminate | reflexivity]|].
    left. split; [reflexivity|].
    split; [now apply Student_exists_false|].
    split; [now apply Organization_exists_false|].
    split; [reflexivity|]. split; [reflexivity|].
    right. split; [reflexivity|]. eexists. split; [reflexivity|]. repeat split.
Qed.

(** The fields that a registration answered 201 supplied, by role. *)
Lemma register_created_fields (env : Env) (db : Db) (b : RegisterBody) :
  status (snd (post_api_auth_register env db b)) = 201%Z ->
  (reg_role b = Some "student" ->
   truthy (reg_firstName b) = true
   /\ truthy (reg_lastName b) = true
   /\ truthy (reg_email b) = true
   /\ truthy (reg_phone b) = true
   /\ truthy (reg_password b) = true)
  /\ (reg_role b = Some "organization" ->
      truthy (reg_orgName b) = true
      /\ truthy (reg_email b) = true
      /\ truthy (reg_password b) = true
      /\ reg_orgTerms b = true).
Proof.
  unfold post_api_auth_register.
  destruct (invalidRole (reg_role b)); [discriminate|].
  destruct (Student.exists_ db (reg_email b) || Organization.exists_ db (reg_email b));
    [discriminate|].
  intros Hcreated. split; intros Hrole; rewrite Hrole in Hcreated;
    cbn [str String.eqb Ascii.eqb Bool.eqb] in Hcreated.
  - destruct (truthy (reg_firstName b)); [|discriminate Hcreated].
    destruct (truthy (reg_lastName b)); [|discriminate Hcreated].
    destruct (truthy (reg_email b)); [|discriminate Hcreated].
    destruct (truthy (reg_phone b)); [|discriminate Hcreated].
    destruct (truthy (reg_password b)); [|discriminate Hcreated].
    repeat split.
  - destruct (truthy (reg_orgName b)); [|discriminate Hcreated].
    destruct (truthy (reg_email b)); [|discriminate Hcreated].
    destruct (truthy (reg_password b)); [|discriminate Hcreated].
    destruct (reg_orgTerms b); [|discriminate Hcreated].
    repeat split.
Qed.

(** X10. Every outcome of [POST /api/auth/register]: a 201 means that
    the request supplied every field its role requires (firstName,
    lastName, email, phone and password for a student; orgName, email,
    password and the accepted terms for an organization), that no stored
    account matched the email, and that exactly one document was
    appended, to the collection of the requested role, holding the email
    (trimmed, for a student) and the bcrypt hash of the password under
    the salt of this request, while the other collections are as before;
    any other answer leaves the database as it was. *)
Theorem register_outcomes (env : Env) (db : Db) (b : RegisterBody) :
  (status (snd (post_api_auth_register env db b)) = 201%Z ->
   Student.findOne db (str (reg_email b)) = None
   /\ Organization.findOne db (str (reg_email b)) = None
   /\ ((reg_role b = Some "student"
        /\ (truthy (reg_firstName b) = true
            /\ truthy (reg_lastName b) = true
            /\ truthy (reg_email b) = true
            /\ truthy (reg_phone b) = true
            /\ truthy (reg_password b) = true)
        /\ organizations (fst (post_api_auth_register env db b)) = organizations db
        /\ exists u,
            students (fst (post_api_auth_register env db b))
            = (students db ++ [u])%list
            /\ s_id u = newId env
            /\ s_email u = trim (str (reg_email b))
            /\ s_password u = bcrypt_hash (str (reg_password b)) (salt env))
       \/ (reg_role b = Some "organization"
           /\ (truthy (reg_orgName b) = true
               /\ truthy (reg_email b) = true
               /\ truthy (reg_password b) = true
               /\ reg_orgTerms b = true)
           /\ students (fst (post_api_auth_register env db b)) = students db
           /\ exists o,
               organizations (fst (post_api_auth_register env db b))
               = (organizations db ++ [o])%list
               /\ o_id o = newId env
               /\ o_email o = str (reg_email b)
               /\ o_password o = bcrypt_hash (str (reg_password b)) (salt env)))
   /\ posts (fst (post_api_auth_register env db b)) = posts db)
  /\ (status (snd (post_api_auth_register env db b)) <> 201%Z ->
      fst (post_api_auth_register env db b) = db).
Proof.
  pose proof (register_created_fields env db b) as Hfields.
  destruct (post_api_auth_register_inv env db b)
    as [(Hcreated & Hs & Ho & _ & _ & Hrole) | (Hnot & Hdb)].
  - split; [|intros Hnot; contradiction].
    intros _. split; [exact Hs|]. split; [exact Ho|].
    destruct (Hfields Hcreated) as [Hstudent Horg].
    destruct Hrole as [(Hrole & u & Hdb & Hu) | (Hrole & o & Hdb & Hu)];
      rewrite Hdb; cbn [students organizations posts Student.withStudents
                          Organization.withOrganizations].
    + split; [|reflexivity]. left. split; [exact Hrole|].
      split; [exact (Hstudent Hrole)|]. split; [reflexivity|].
      exists u. split; [reflexivity | exact Hu].
    + split; [|reflexivity]. right. split; [exact Hrole|].
      split; [exact (Horg Hrole)|]. split; [reflexivity|].
      exists o. split; [reflexivity | exact Hu].
  - split; [intros Hcreated; contradiction | intros _; exact Hdb].
Qed.

(** X11. Register then log in: after a registration answered 201, a
    login with the same email and password is answered 200 with the role
    that was registered and the identifier of the new account (also as
    [orgId] for an organization), provided bcrypt verifies the password
    against the hash it made of it. *)
Theorem register_then_login (env : Env) (db : Db) (b : RegisterBody) :
  status (snd (post_api_auth_register env db b)) = 201%Z ->
  bcrypt_compare (str (reg_password b))
    (bcrypt_hash (str (reg_password b)) (salt env)) = true ->
  post_api_auth_login (fst (post_api_auth_register env db b))
    (loginWith (reg_email b) (reg_password b))
  = reply 200
      (BLogin "Login successful" (str (reg_role b))
         (if str (reg_role b) =? "student"
          then trim (str (reg_email b)) else str (reg_email b))
         (newId env)
         (if str (reg_role b) =? "organization" then Some (newId env) else None)).
Proof.
  intros Hcreated Hverify.
  destruct (post_api_auth_register_inv env db b)
    as [(_ & Hs & Ho & He & Hp & Hrole) | (Hnot & _)]; [|contradiction].
  unfold post_api_auth_login, loginWith. cbn [login_email login_password].
  rewrite He, Hp. cbn [negb orb].
  destruct Hrole as [(Hrole & u & -> & Hid & Hemail & Hpass)
                    | (Hrole & o & -> & Hid & Hemail & Hpass)];
    rewrite Hrole; cbn [str].
  - unfold Student.findOne in *. cbn [students Student.withStudents].
    rewrite (find_app_last _ _ u Hs) by (rewrite Hemail; apply String.eqb_refl).
    cbn [option_map userOfStudent u_password u_email u_id].
    rewrite Hpass, Hverify, Hemail, Hid. reflexivity.
  - unfold Student.findOne, Organization.findOne in *.
    cbn [students organizations Organization.withOrganizations].
    rewrite Hs. cbn [option_map].
    rewrite (find_app_last _ _ o Ho) by (rewrite Hemail; apply String.eqb_refl).
    cbn [option_map userOfOrganization u_password u_email u_id].
    rewrite Hpass, Hverify, Hemail, Hid. reflexivity.
Qed.

End Registration.

(** ** Emails, passwords and profiles *)

Section AccountsInDepth.

Context `{Platform}.

Lemma NoDup_snoc {A : Type} (l : list A) (x : A) :
  NoDup l -> ~ In x l -> NoDup (l ++ [x])%list.
Proof.
  intros Hl Hx. apply (Permutation_NoDup (Permutation_cons_append l x)).
  now constructor.
Qed.

Lemma Student_findOne_None_notin (db : Db) (e : string) :
  Student.findOne db e = None -> ~ In (trim e) (map s_email (students db)).
Proof.
  unfold Student.findOne. intros Hnone Hin.
  apply in_map_iff in Hin as (u & Hu & Hin).
  apply (find_none _ _ Hnone) in Hin. cbn in Hin.
  rewrite Hu, String.eqb_refl in Hin. discriminate.
Qed.

Lemma Organization_findOne_None_notin (db : Db) (e : string) :
  Organization.findOne db e = None -> ~ In e (map o_email (organizations db)).
Proof.
  unfold Organization.findOne. intros Hnone Hin.
  apply in_map_iff in Hin as (o & Ho & Hin).
  apply (find_none _ _ Hnone) in Hin. cbn in Hin.
  rewrite Ho, String.eqb_refl in Hin. discriminate.
Qed.

(** X12. Registration keeps emails unique: if no two students and no
    two organizations share an email before a registration, none do
    after it, whatever the request.  Across the two collections the same
    holds when the stored student emails are trimmed and the new account
    is an organization or its email has no surrounding white space: if no
    email was held by both a student and an organization, none is. *)
Theorem register_keeps_emails_unique (env : Env) (db : Db) (b : RegisterBody) :
  NoDup (map s_email (students db)) ->
  NoDup (map o_email (organizations db)) ->
  NoDup (map s_email (students (fst (post_api_auth_register env db b))))
  /\ NoDup (map o_email (organizations (fst (post_api_auth_register env db b))))
  /\ (emailsTrimmed db ->
      reg_role b = Some "organization"
      \/ trim (str (reg_email b)) = str (reg_email b) ->
      (forall e, In e (map s_email (students db)) ->
                 ~ In e (map o_email (organizations db))) ->
      forall e,
        In e (map s_email (students (fst (post_api_auth_register env db b)))) ->
        ~ In e (map o_email (organizations (fst (post_api_auth_register env db b))))).
Proof.
  intros Hs Ho.
  destruct (post_api_auth_register_inv env db b)
    as [(_ & Hnos & Hnoo & _ & _ & Hrole) | (_ & ->)];
    [|split; [exact Hs | split; [exact Ho | intros _ _ Hdisj; exact Hdisj]]].
  apply Student_findOne_None_notin in Hnos.
  apply Organization_findOne_None_notin in Hnoo.
  destruct Hrole as [(Hrole & u & -> & _ & Hemail & _)
                    | (Hrole & o & -> & _ & Hemail & _)];
    cbn [students organizations Student.withStudents Organization.withOrganizations].
  - rewrite map_app. cbn [map]. rewrite Hemail.
    split; [now apply NoDup_snoc|]. split; [exact Ho|].
    intros _ [Horg | Htrim] Hdisj e Hin; [rewrite Hrole in Horg; discriminate|].
    apply in_app_or in Hin as [Hin | [<- | []]]; [now apply Hdisj|].
    now rewrite Htrim.
  - rewrite map_app. cbn [map]. rewrite Hemail.
    split; [exact Hs|]. split; [now apply NoDup_snoc|].
    intros Htrimmed _ Hdisj e Hin Hin'.
    apply in_app_or in Hin' as [Hin' | [<- | []]]; [now apply (Hdisj e)|].
    apply Hnos. apply in_map_iff in Hin as (u & Hu & Hin).
    unfold emailsTrimmed in Htrimmed. rewrite Forall_forall in Htrimmed.
    rewrite <- Hu, (Htrimmed u Hin). now apply in_map.
Qed.

(** X13. A login answered 200 was verified: both fields were supplied,
    the response names a stored account by email and identifier, bcrypt
    accepted the supplied password against the hash stored for that very
    account, and [orgId] repeats the identifier for an organization and
    is null for a student. *)
Theorem login_success_is_verified (db : Db) (b : LoginBody)
    (message role email : string) (id : ObjectId) (orgId : option ObjectId) :
  post_api_auth_login db b = reply 200 (BLogin message role email id orgId) ->
  truthy (login_email b) = true
  /\ truthy (login_password b) = true
  /\ ((role = "student" /\ orgId = None
       /\ exists u,
           In u (students db) /\ s_email u = email /\ s_id u = id
           /\ bcrypt_compare (str (login_password b)) (s_password u) = true)
      \/ (role = "organization" /\ orgId = Some id
          /\ exists o,
              In o (organizations db) /\ o_email o = email /\ o_id o = id
              /\ bcrypt_compare (str (login_password b)) (o_password o) = true)).
Proof.
  unfold post_api_auth_login.
  destruct (truthy (login_email b)); cbn [negb orb]; [|discriminate].
  destruct (truthy (login_password b)); cbn [negb]; [|discriminate].
  destruct (Student.findOne db (str (login_email b))) as [u|] eqn:Es; cbn [option_map].
  - apply Student_findOne_In in Es as [Hin _].
    destruct (bcrypt_compare _ _) eqn:Hverify; cbn [negb]; [|discriminate].
    cbn. intros E. injection E as _ <- <- <- <-.
    split; [reflexivity|]. split; [reflexivity|]. left.
    split; [reflexivity|]. split; [reflexivity|]. exists u. now repeat split.
  - destruct (Organization.findOne db (str (login_email b))) as [o|] eqn:Eo;
      cbn [option_map]; [|discriminate].
    apply Organization_findOne_In in Eo as [Hin _].
    destruct (bcrypt_compare _ _) eqn:Hverify; cbn [negb]; [|discriminate].
    cbn. intros E. injection E as _ <- <- <- <-.
    split; [reflexivity|]. split; [reflexivity|]. right.
    split; [reflexivity|]. split; [reflexivity|]. exists o. now repeat split.
Qed.

Lemma find_replaceFirst_const {A : Type} (P Q : A -> bool) (new old : A)
    (l : list A) :
  List.find P l = Some old -> Q old = true -> P new = true ->
  List.find P (replaceFirst Q (fun _ => new) l) = Some new.
Proof.
  intros Hfind HQ HP. induction l as [|x r IH]; simpl in *; [discriminate|].
  destruct (Q x) eqn:Eq; simpl.
  - now rewrite HP.
  - destruct (P x) eqn:Ep.
    + injection Hfind as ->. congruence.
    + now apply IH.
Qed.

(** X14. Save then fetch: after [POST /api/cv] answered 200,
    [GET /api/cv] with the same email answers 200 with exactly the CV that
    the save returned. *)
Theorem save_cv_then_get (env : Env) (db db' : Db) (b : CvBody) (message : string)
    (cv : CvJson) :
  post_api_cv env db b = (db', reply 200 (BCvSaved message cv)) ->
  exists id, get_api_cv db' (cv_req_email b) = reply 200 (BCv id cv).
Proof.
  unfold post_api_cv.
  destruct (truthy (cv_req_email b)) eqn:He; cbn [negb orb]; [|discriminate].
  destruct (negb _ || _ || _); [discriminate|].
  destruct (Student.findOne db (str (cv_req_email b))) as [old|] eqn:Eold;
    [|discriminate].
  unfold Student.save. destruct (Student.validate _); [|discriminate].
  intros E. injection E as <- _ <-.
  exists (s_id old). unfold get_api_cv. rewrite He. cbn [negb].
  pose proof (Student_findOne_In _ _ _ Eold) as [_ Hemail].
  unfold Student.findOne in *. cbn [students Student.withStudents s_id].
  erewrite find_replaceFirst_const;
    [reflexivity | exact Eold | apply String.eqb_refl
    | cbn; rewrite Hemail; apply String.eqb_refl].
Qed.

Lemma find_map_user (t : string) (l : list StudentDoc) :
  option_map userOfStudent (List.find (fun u => s_email u =? t) l)
  = List.find (fun a => u_email a =? t) (map userOfStudent l).
Proof.
  induction l as [|u r IH]; simpl; [reflexivity|].
  destruct (s_email u =? t); [reflexivity | exact IH].
Qed.

Lemma map_replaceFirst_unique {B : Type} (h : StudentDoc -> B) (old new : StudentDoc)
    (l : list StudentDoc) :
  NoDup (map s_id l) -> In old l -> h new = h old ->
  map h (replaceFirst (fun u => s_id u =? s_id old) (fun _ => new) l) = map h l.
Proof.
  intros Hnodup Hin Hh. induction l as [|x r IH]; simpl in *; [reflexivity|].
  inversion Hnodup as [|? ? Hnotin Hr]; subst.
  destruct (String.eqb_spec (s_id x) (s_id old)) as [Eid | Nid]; simpl.
  - destruct Hin as [-> | Hin]; [now rewrite Hh|].
    exfalso. apply Hnotin. rewrite Eid. now apply in_map.
  - destruct Hin as [-> | Hin]; [contradiction|]. now rewrite IH.
Qed.

(** X15. Saving a CV changes no credentials: when the identifiers of
    the stored students are unique, every login is answered after a
    [POST /api/cv], whatever its outcome, as it was answered before, and
    the organizations and the posts are as before. *)
Theorem save_cv_keeps_logins (env : Env) (db : Db) (b : CvBody) :
  NoDup (map s_id (students db)) ->
  (forall lb,
      post_api_auth_login (fst (post_api_cv env db b)) lb = post_api_auth_login db lb)
  /\ organizations (fst (post_api_cv env db b)) = organizations db
  /\ posts (fst (post_api_cv env db b)) = posts db.
Proof.
  intros Hnodup.
  assert (Hsame :
            map userOfStudent (students (fst (post_api_cv env db b)))
            = map userOfStudent (students db)
            /\ organizations (fst (post_api_cv env db b)) = organizations db
            /\ posts (fst (post_api_cv env db b)) = posts db).
  { unfold post_api_cv.
    destruct (negb _ || _ || _ || _); [now repeat split|].
    destruct (Student.findOne db (str (cv_req_email b))) as [old|] eqn:Eold;
      [|now repeat split].
    unfold Student.save. destruct (Student.validate _); [|now repeat split].
    cbn [fst students organizations posts Student.withStudents s_id].
    split; [|split; reflexivity].
    apply Student_findOne_In in Eold as [Hin _].
    now apply map_replaceFirst_unique. }
  destruct Hsame as (Hstudents & Horgs & Hposts).
  split; [|split; assumption].
  intros lb. unfold post_api_auth_login, Student.findOne, Organization.findOne.
  rewrite !find_map_user, Hstudents, Horgs. reflexivity.
Qed.

End AccountsInDepth.

(** ** Across routes *)

Section AcrossRoutes.

Context `{Platform}.

(** X16. Register then fetch the CV: after a student registration
    answered 201, [GET /api/cv] with the registered email answers 200 with
    the new identifier, the trimmed name, email and phone of the request,
    and none of the optional profile fields. *)
Theorem register_student_then_get_cv (env : Env) (db : Db) (b : RegisterBody) :
  reg_role b = Some "student" ->
  status (snd (post_api_auth_register env db b)) = 201%Z ->
  get_api_cv (fst (post_api_auth_register env db b)) (reg_email b)
  = reply 200
      (BCv (newId env)
         {| cv_firstName := Some (trim (str (reg_firstName b)));
            cv_lastName := Some (trim (str (reg_lastName b)));
            cv_email := trim (str (reg_email b));
            cv_phone := Some (trim (str (reg_phone b)));
            cv_address := None;
            cv_education := None;
            cv_skills := None;
            cv_experience := None;
            cv_projects := None;
            cv_certifications := None |}).
Proof.
  intros Hrole Hcreated.
  destruct (post_api_auth_register_inv env db b)
    as [(_ & Hs & _ & He & _ & _) | (Hnot & _)]; [|contradiction].
  revert Hcreated. unfold post_api_auth_register.
  destruct (invalidRole (reg_role b)); [discriminate|].
  destruct (Student.exists_ db (reg_email b) || Organization.exists_ db (reg_email b));
    [discriminate|].
  rewrite Hrole. cbn [str String.eqb Ascii.eqb Bool.eqb].
  destruct (negb _ || _ || _ || _ || _); [discriminate|].
  unfold Student.insert. destruct (Student.validate _); [|discriminate].
  destruct (existsb _ _); [discriminate|]. intros _.
  unfold get_api_cv. rewrite He. cbn [negb fst].
  unfold Student.findOne in *. cbn [students Student.withStudents].
  rewrite (find_app_last _ _ _ Hs) by (cbn; apply String.eqb_refl).
  reflexivity.
Qed.

(** X17. [POST /api/cv] never creates or removes a student: the number
    of stored students is the same after every call, and a call for an
    email that no student has, with the four required fields present, is
    answered 400 ("Student not found.") and changes nothing. *)
Theorem save_cv_never_creates (env : Env) (db : Db) (b : CvBody) :
  List.length (students (fst (post_api_cv env db b))) = List.length (students db)
  /\ (truthy (cv_req_email b) = true ->
      truthy (cv_req_firstName b) = true ->
      truthy (cv_req_lastName b) = true ->
      truthy (cv_req_phone b) = true ->
      Student.findOne db (str (cv_req_email b)) = None ->
      post_api_cv env db b = (db, fail 400 "Student not found.")).
Proof.
  split.
  - unfold post_api_cv.
    destruct (negb _ || _ || _ || _); [reflexivity|].
    destruct (Student.findOne db (str (cv_req_email b))); [|reflexivity].
    unfold Student.save. destruct (Student.validate _); [|reflexivity].
    cbn [fst students Student.withStudents]. apply replaceFirst_length.
  - intros He Hf Hl Hp Hnone. unfold post_api_cv.
    now rewrite He, Hf, Hl, Hp, Hnone.
Qed.

Lemma active_ids_by_owner_and_status (l : list PostDoc) :
  map p_id (filter (fun p => p_status p =? "active") l)
  = map (fun t => fst (fst (fst t)))
      (filter (fun t => snd t =? "active") (map ownerAndStatus l)).
Proof.
  induction l as [|p r IH]; simpl; [reflexivity|].
  destruct (p_status p =? "active"); simpl; now rewrite IH.
Qed.

Lemma feed_ids (db : Db) :
  Permutation (map p_id (listed (get_api_posts db None)))
    (map p_id (filter (fun p => p_status p =? "active") (posts db))).
Proof.
  unfold get_api_posts, listed, Post.findActive. cbn [truthy reply body].
  rewrite map_map. cbn [Post.selectWithoutV p_id].
  apply Permutation_map. symmetry. apply sortByCreatedAtDesc_perm.
Qed.

(** X18. No update publishes or withdraws a post: after
    [PUT /api/posts/:id], whatever the request and its outcome, the public
    feed lists the posts with the same identifiers as before. *)
Theorem update_keeps_feed_membership (rev : PostSchemaRevision) (env : Env)
    (db : Db) (id : string) (b : PostBody) :
  Permutation
    (map p_id (listed (get_api_posts (fst (put_api_posts_id rev env db id b)) None)))
    (map p_id (listed (get_api_posts db None))).
Proof.
  rewrite !feed_ids, !active_ids_by_owner_and_status.
  now rewrite put_frame.
Qed.

End AcrossRoutes.

(** ** The further properties at work *)

Module Runs.

Import Demo.

Lemma create_then_get_witness :
  exists db' post,
    post_api_posts (H:=platform) OptionalLink env1 emptyDb activeBody
    = (db', reply 201 (BPost post))
    /\ p_title post = "Open day"
    /\ get_api_posts_id (H:=platform) db' (p_id post) = reply 200 (BPost post).
Proof.
  destruct (post_api_posts (H:=platform) OptionalLink env1 emptyDb activeBody)
    as [db' r] eqn:Hcreate.
  assert (Hr : exists post, r = reply 201 (BPost post) /\ p_title post = "Open day").
  { vm_compute in Hcreate. injection Hcreate as _ <-. eexists. split; reflexivity. }
  destruct Hr as (post & -> & Htitle).
  exists db', post. split; [reflexivity|]. split; [exact Htitle|].
  apply (create_then_get (H:=platform) OptionalLink env1 emptyDb db' activeBody post).
  - vm_compute; reflexivity.
  - reflexivity.
  - exact Hcreate.
Defined.


Lemma post_routes_keep_posts_valid_witness :
  Forall (storedPostOk RequiredUrlLink) (posts onsiteDb)
  /\ Forall (storedPostOk RequiredUrlLink)
       (posts (fst (post_api_posts (H:=platform) RequiredUrlLink env1 onsiteDb
                      activeBody)))
  /\ List.length
       (posts (fst (post_api_posts (H:=platform) RequiredUrlLink env1 onsiteDb
                      activeBody)))
     = 2%nat.
Proof.
  assert (Hok : Forall (storedPostOk RequiredUrlLink) (posts onsiteDb)).
  { constructor; [|constructor]. unfold storedPostOk. cbn.
    split; [discriminate|]. split; [discriminate|]. split; [lia|].
    split; [auto|]. split; [lia|]. split; [auto|].
    split; [intros s e E1 E2; injection E1 as <-; injection E2 as <-; lia|].
    reflexivity. }
  split; [exact Hok|]. split; [|vm_compute; reflexivity].
  exact (proj1 (post_routes_keep_posts_valid (H:=platform) RequiredUrlLink env1
                  onsiteDb Hok) activeBody).
Defined.


Lemma update_is_idempotent_witness :
  exists db' post,
    put_api_posts_id (H:=platform) OptionalLink env2 onsiteDb postId retitleBody
    = (db', reply 200 (BPost post))
    /\ put_api_posts_id (H:=platform) OptionalLink env2 db' postId retitleBody
       = (db', reply 200 (BPost post)).
Proof.
  destruct (put_api_posts_id (H:=platform) OptionalLink env2 onsiteDb postId
              retitleBody) as [db' r] eqn:Hput.
  assert (Hr : exists post, r = reply 200 (BPost post)).
  { vm_compute in Hput. injection Hput as _ <-. eexists. reflexivity. }
  destruct Hr as (post & ->).
  exists db', post. split; [reflexivity|].
  exact (update_is_idempotent (H:=platform) OptionalLink env2 onsiteDb db' postId
           retitleBody post Hput).
Defined.

Lemma update_of_unknown_id_witness :
  Post.findById (H:=platform) onsiteDb otherOrgId = Returned None
  /\ put_api_posts_id (H:=platform) OptionalLink env2 onsiteDb otherOrgId retitleBody
     = (onsiteDb, fail 404 "Post not found")
  /\ fst (put_api_posts_id (H:=platform) RequiredUrlLink env2 onsiteDb otherOrgId
            retitleBody)
     = onsiteDb
  /\ status
       (snd
          (put_api_posts_id (H:=platform) RequiredUrlLink env2 onsiteDb otherOrgId
             retitleBody))
     = 400%Z.
Proof.
  assert (Hnone : Post.findById (H:=platform) onsiteDb otherOrgId = Returned None)
    by (vm_compute; reflexivity).
  split; [exact Hnone|].
  destruct (update_of_unknown_id (H:=platform) OptionalLink env2 onsiteDb otherOrgId
              retitleBody Hnone) as (Hdb & Hfound & _).
  destruct (update_of_unknown_id (H:=platform) RequiredUrlLink env2 onsiteDb
              otherOrgId retitleBody Hnone) as (Hdb' & _ & Hbad).
  split.
  - rewrite (surjective_pairing
               (put_api_posts_id (H:=platform) OptionalLink env2 onsiteDb otherOrgId
                  retitleBody)).
    rewrite Hdb, Hfound; reflexivity.
  - split; [exact Hdb'|]. apply Hbad.
    right. right. right. right. vm_compute. discriminate.
Defined.

Lemma delete_outcomes_witness :
  exists db',
    delete_api_posts_id (H:=platform) feedDb (p_id activeOfOther)
    = (db', reply 200 (BMessage "Post deleted successfully"))
    /\ Permutation (posts feedDb) (activeOfOther :: posts db').
Proof.
  pose proof (delete_outcomes (H:=platform) feedDb (p_id activeOfOther)
                (p_id activeOfOther) eq_refl) as Hout.
  change (List.find (Post.hasId (p_id activeOfOther)) (posts feedDb))
    with (Some activeOfOther) in Hout.
  destruct Hout as (db' & Hdelete & Hperm & _).
  exists db'. split; assumption.
Defined.

Lemma delete_then_get_witness :
  NoDup (map p_id (posts feedDb))
  /\ get_api_posts_id (H:=platform)
       (fst (delete_api_posts_id (H:=platform) feedDb (p_id activeOfOther)))
       (p_id activeOfOther)
     = fail 404 "Post not found".
Proof.
  assert (Hnodup : NoDup (map p_id (posts feedDb))).
  { repeat constructor; cbn; intuition discriminate. }
  split; [exact Hnodup|].
  destruct (delete_api_posts_id (H:=platform) feedDb (p_id activeOfOther))
    as [db' r] eqn:Hdelete.
  assert (Hr : status r = 200%Z).
  { vm_compute in Hdelete. injection Hdelete as _ <-. reflexivity. }
  exact (proj1 (delete_then_get (H:=platform) feedDb db' (p_id activeOfOther) r
                  Hnodup Hdelete Hr)).
Defined.

Lemma register_outcomes_witness :
  students (fst (post_api_auth_register (H:=platform) env3 accountsDb initechBody))
  = students accountsDb
  /\ exists o,
       organizations
         (fst (post_api_auth_register (H:=platform) env3 accountsDb initechBody))
       = (organizations accountsDb ++ [o])%list
       /\ o_email o = "jobs@initech.example"
       /\ o_password o = bcrypt_hash (Platform:=platform) "tps" "salt".
Proof.
  destruct (register_outcomes (H:=platform) env3 accountsDb initechBody)
    as [Hcreated _].
  destruct Hcreated
    as (_ & _ & [(Hrole & _) | (_ & _ & Hstudents & o & Ho & _ & He & Hp)] & _).
  - vm_compute; reflexivity.
  - discriminate Hrole.
  - split; [exact Hstudents|]. exists o. split; [exact Ho|]. split; assumption.
Defined.

Lemma register_then_login_witness :
  post_api_auth_login (H:=platform)
    (fst (post_api_auth_register (H:=platform) env3 accountsDb graceBody))
    (loginWith (Some "grace@navy.example") (Some "cobol"))
  = reply 200
      (BLogin "Login successful" "student" "grace@navy.example" (newId env3) None)
  /\ post_api_auth_login (H:=platform)
       (fst (post_api_auth_register (H:=platform) env3 accountsDb initechBody))
       (loginWith (Some "jobs@initech.example") (Some "tps"))
     = reply 200
         (BLogin "Login successful" "organization" "jobs@initech.example"
            (newId env3) (Some (newId env3))).
Proof.
  split.
  - apply (register_then_login (H:=platform) env3 accountsDb graceBody);
      vm_compute; reflexivity.
  - apply (register_then_login (H:=platform) env3 accountsDb initechBody);
      vm_compute; reflexivity.
Defined.

Lemma register_keeps_emails_unique_witness :
  NoDup
    (map s_email
       (students (fst (post_api_auth_register (H:=platform) env3 accountsDb graceBody))))
  /\ List.length
       (students (fst (post_api_auth_register (H:=platform) env3 accountsDb graceBody)))
     = 2%nat
  /\ forall e,
       In e
         (map s_email
            (students
               (fst (post_api_auth_register (H:=platform) env3 accountsDb graceBody)))) ->
       ~ In e
           (map o_email
              (organizations
                 (fst (post_api_auth_register (H:=platform) env3 accountsDb
                         graceBody)))).
Proof.
  assert (Hs : NoDup (map s_email (students accountsDb)))
    by (repeat constructor; cbn; tauto).
  assert (Ho : NoDup (map o_email (organizations accountsDb)))
    by (repeat constructor; cbn; tauto).
  destruct (register_keeps_emails_unique (H:=platform) env3 accountsDb graceBody Hs Ho)
    as (Hs' & _ & Hdisj).
  split; [exact Hs'|]. split; [vm_compute; reflexivity|].
  apply Hdisj.
  - repeat constructor.
  - right. vm_compute; reflexivity.
  - intros e [<- | []] [E | []]. discriminate E.
Defined.

Lemma login_success_is_verified_witness :
  exists o,
    In o (organizations accountsDb)
    /\ o_email o = "hr@acme.example"
    /\ o_id o = acmeId
    /\ bcrypt_compare (Platform:=platform) "anvil" (o_password o) = true.
Proof.
  assert (Hlogin :
            post_api_auth_login (H:=platform) accountsDb acmeLogin
            = reply 200
                (BLogin "Login successful" "organization" "hr@acme.example" acmeId
                   (Some acmeId)))
    by (vm_compute; reflexivity).
  destruct (login_success_is_verified (H:=platform) accountsDb acmeLogin _ _ _ _ _
              Hlogin) as (_ & _ & [(Hrole & _) | (_ & _ & Horg)]).
  - discriminate Hrole.
  - exact Horg.
Defined.

Lemma save_cv_then_get_witness :
  exists db' message cv id,
    post_api_cv env2 accountsDb bareCv = (db', reply 200 (BCvSaved message cv))
    /\ cv_lastName cv = Some "King"
    /\ cv_address cv = Some EmptyString
    /\ get_api_cv db' (Some "ada@uni.example") = reply 200 (BCv id cv).
Proof.
  destruct (post_api_cv env2 accountsDb bareCv) as [db' r] eqn:Hsave.
  assert (Hr : exists message cv,
             r = reply 200 (BCvSaved message cv)
             /\ cv_lastName cv = Some "King" /\ cv_address cv = Some EmptyString).
  { vm_compute in Hsave. injection Hsave as _ <-. do 2 eexists. repeat split. }
  destruct Hr as (message & cv & -> & Hlast & Haddress).
  destruct (save_cv_then_get env2 accountsDb db' bareCv message cv Hsave) as [id Hget].
  exists db', message, cv, id. repeat split; assumption.
Defined.

Lemma save_cv_keeps_logins_witness :
  NoDup (map s_id (students accountsDb))
  /\ post_api_auth_login (H:=platform) (fst (post_api_cv env2 accountsDb bareCv))
       adaLogin
     = reply 200
         (BLogin "Login successful" "student" "ada@uni.example" (s_id ada) None).
Proof.
  assert (Hnodup : NoDup (map s_id (students accountsDb)))
    by (repeat constructor; cbn; tauto).
  split; [exact Hnodup|].
  rewrite (proj1 (save_cv_keeps_logins (H:=platform) env2 accountsDb bareCv Hnodup)).
  vm_compute; reflexivity.
Defined.

Lemma register_student_then_get_cv_witness :
  exists cv,
    get_api_cv (fst (post_api_auth_register (H:=platform) env3 accountsDb graceBody))
      (Some "grace@navy.example")
    = reply 200 (BCv (newId env3) cv)
    /\ cv_firstName cv = Some "Grace"
    /\ cv_address cv = None.
Proof.
  eexists. split.
  - apply (register_student_then_get_cv (H:=platform) env3 accountsDb graceBody).
    + reflexivity.
    + vm_compute; reflexivity.
  - split; reflexivity.
Defined.

Lemma save_cv_never_creates_witness :
  post_api_cv env2 emptyDb bareCv = (emptyDb, fail 400 "Student not found.").
Proof.
  apply (proj2 (save_cv_never_creates env2 emptyDb bareCv)); reflexivity.
Defined.

End Runs.
